(** * ATC transcription quality test: a shallow embedding

    Embedding of [test_samples/test_atc_transcription.py]: the word error
    rate scorer with its fallback, the sample loader, the two transcription
    backends, the comparison run with its summary, and the script entry.

    Conventions.
    - A Python [str] is a [string] whose characters are read as the code
      points 0..255; [lower], [split] and [strip] follow [str.lower],
      [str.split()] and [str.strip()] on that range.
    - A Python [float] is an exact rational ([Q]); results are compared
      with [==].
    - Exceptions are values: a computation is a [result], and code that
      also prints is an [M], the printed lines and external calls so far
      paired with a [result].
    - What the script imports at run time (jiwer, the corpus, the two
      models, the installed packages) is the record [Env]. *)

From Stdlib Require Import String Ascii List Bool ZArith NArith QArith Qminmax Lia Lqa.
Import ListNotations.

Local Open Scope Z_scope.

(** ** Python strings *)

Module PyStr.

(** [str.isspace] on one character: TAB..CR, FS..US, space, NEL, NBSP. *)
Definition isspace (c : ascii) : bool :=
  let n := N_of_ascii c in
  (((9 <=? n) && (n <=? 13)) || ((28 <=? n) && (n <=? 32))
   || (n =? 133) || (n =? 160))%N.

(** [str.lower] on one character: A..Z and the Latin-1 capitals. *)
Definition lower_char (c : ascii) : ascii :=
  let n := N_of_ascii c in
  if (((65 <=? n) && (n <=? 90))
      || ((192 <=? n) && (n <=? 222) && negb (n =? 215)))%N
  then ascii_of_N (n + 32) else c.

Fixpoint lower (s : string) : string :=
  match s with
  | EmptyString => EmptyString
  | String c rest => String (lower_char c) (lower rest)
  end.

(** [str.split()] with no separator: the maximal runs of characters that
    are not whitespace.  [word] is the run being read. *)
Fixpoint split_from (word s : string) : list string :=
  match s with
  | EmptyString =>
      match word with EmptyString => [] | _ => [word] end
  | String c rest =>
      if isspace c then
        match word with
        | EmptyString => split_from EmptyString rest
        | _ => word :: split_from EmptyString rest
        end
      else split_from (word ++ String c EmptyString) rest
  end.

Definition split (s : string) : list string := split_from EmptyString s.

Fixpoint lstrip (s : string) : string :=
  match s with
  | EmptyString => EmptyString
  | String c rest => if isspace c then lstrip rest else s
  end.

Fixpoint rstrip (s : string) : string :=
  match s with
  | EmptyString => EmptyString
  | String c rest =>
      match rstrip rest with
      | EmptyString => if isspace c then EmptyString else String c EmptyString
      | kept => String c kept
      end
  end.

Definition strip (s : string) : string := rstrip (lstrip s).

End PyStr.

(** ** Exceptions and results *)

Inductive exn : Type :=
| ImportError (msg : string)
| ZeroDivisionError (msg : string)
| Exception (msg : string).

(** [str(e)], as interpolated by [f"...{e}..."]. *)
Definition str (e : exn) : string :=
  match e with
  | ImportError msg | ZeroDivisionError msg | Exception msg => msg
  end.

Inductive result (A : Type) : Type :=
| Ok (a : A)
| Raise (e : exn).
Arguments Ok {A} a.
Arguments Raise {A} e.

(** ** Word error rate *)

(** [jiwer.wer], when the package can be imported. *)
Definition scorer : Type := string -> string -> result Q.

(** The loop [for r, h in zip(ref_words, hyp_words): if r != h: errors += 1]. *)
Fixpoint zip_errors (errors : Z) (ref_words hyp_words : list string) : Z :=
  match ref_words, hyp_words with
  | r :: ref_rest, h :: hyp_rest =>
      zip_errors (if String.eqb r h then errors else errors + 1) ref_rest hyp_rest
  | _, _ => errors
  end.

(** The [except ImportError] branch of [calculate_wer]. *)
Definition fallback_wer (reference hypothesis : string) : Q :=
  let ref_words := PyStr.split (PyStr.lower reference) in
  let hyp_words := PyStr.split (PyStr.lower hypothesis) in
  match ref_words with
  | [] => match hyp_words with [] => 0%Q | _ => 1%Q end
  | _ =>
      let errors := Z.abs (Z.of_nat (length ref_words) - Z.of_nat (length hyp_words)) in
      let errors := zip_errors errors ref_words hyp_words in
      Qmin 1 (errors # Pos.of_nat (length ref_words))
  end.

(** [calculate_wer]: [jiwer] is [None] when [from jiwer import wer] raises
    [ImportError]; an [ImportError] from the call itself reaches the same
    handler, any other exception propagates. *)
Definition calculate_wer (jiwer : option scorer) (reference hypothesis : string)
  : result Q :=
  match jiwer with
  | None => Ok (fallback_wer reference hypothesis)
  | Some wer =>
      match wer (PyStr.lower reference) (PyStr.lower hypothesis) with
      | Raise (ImportError _) => Ok (fallback_wer reference hypothesis)
      | outcome => outcome
      end
  end.

(** The fallback as the specification words it: the length difference plus
    one error per index below the shorter length at which the words differ. *)
Definition disagree_at (ref_words hyp_words : list string) (i : nat) : bool :=
  negb (String.eqb (nth i ref_words EmptyString) (nth i hyp_words EmptyString)).

Definition spec_error_count (ref_words hyp_words : list string) : Z :=
  let shorter := Nat.min (length ref_words) (length hyp_words) in
  Z.abs (Z.of_nat (length ref_words) - Z.of_nat (length hyp_words))
  + Z.of_nat (length (filter (disagree_at ref_words hyp_words) (seq 0 shorter))).

Definition spec_fallback_wer (reference hypothesis : string) : Q :=
  let ref_words := PyStr.split (PyStr.lower reference) in
  let hyp_words := PyStr.split (PyStr.lower hypothesis) in
  if (length ref_words =? 0)%nat then
    if (0 <? length hyp_words)%nat then 1%Q else 0%Q
  else
    Qmin 1 (inject_Z (spec_error_count ref_words hyp_words)
            / inject_Z (Z.of_nat (length ref_words))).

(** ** Samples, corpus and models *)

Record Audio : Type := { array : list Q; sampling_rate : Z }.

(** One entry of [samples]: the dict with keys "audio", "text" and "id".
    From here on [id] is this field, not the identity function. *)
Record Sample : Type := { audio : Audio; text : string; id : Z }.

(** A corpus entry, as the two lookups [item["audio"]] and [item["text"]]. *)
Record Item : Type := { item_audio : result Audio; item_text : result string }.

(** What iterating the corpus yields at each position: an entry, or the
    exception raised while fetching it. *)
Definition Dataset : Type := list (result Item).

(** A speech model end to end (imports, [from_pretrained], feature
    extraction, [generate], [batch_decode(...)[0]]): the decoded text, or
    the first exception raised on the way. *)
Definition model : Type := list Q -> Z -> result string.

Record Env : Type := {
  jiwer : option scorer;
  (** [from datasets import load_dataset] followed by
      [load_dataset("jacktol/atc-dataset", split="test")] *)
  load_dataset : result Dataset;
  (** "openai/whisper-small.en" *)
  generic_whisper : model;
  (** "jacktol/whisper-medium.en-fine-tuned-for-ATC" *)
  atc_whisper : model;
  (** what [import <package>] does in the preflight: it returns, raises
      [ImportError], or raises something else *)
  import_package : string -> result unit
}.

(** ** Output and effects *)

Inductive backend : Type := GenericWhisper | AtcWhisper.

Inductive Recommendation : Type :=
| RecommendSpecialized
| RecommendLargerSpecialized.

(** One [print] call.  [Text] is a literal; the other constructors carry the
    values interpolated into an f-string. *)
Inductive line : Type :=
| Text (s : string)
| Loaded (count : Z)
| LoadError (e : exn)
| SampleHeader (number : Z)
| GroundTruth (s : string)
| Transcription (s : string)
| Wer (q : Q)
| AverageWer (b : backend) (q : Q)
| Improvement (percent : Q)
| Verdict (r : Recommendation)
| PipInstall (packages : list string).

(** What a run does that can be observed: it prints, calls a model, or
    scores a hypothesis. *)
Inductive event : Type :=
| Print (l : line)
| Transcribe (b : backend) (audio_array : list Q) (sample_rate : Z)
| Score (reference hypothesis : string).

Definition M (A : Type) : Type := (list event * result A)%type.

Definition ret {A} (a : A) : M A := ([], Ok a).

Definition bind {A B} (m : M A) (f : A -> M B) : M B :=
  match m with
  | (done, Ok a) => let (more, r) := f a in (done ++ more, r)
  | (done, Raise e) => (done, Raise e)
  end.

Definition emit (ev : event) : M unit := ([ev], Ok tt).
Definition print (l : line) : M unit := emit (Print l).
Definition lift {A} (r : result A) : M A := ([], r).

(** [try: body  except Exception as e: handler e] *)
Definition try_except {A} (body : M A) (handler : exn -> M A) : M A :=
  match body with
  | (done, Raise e) => let (more, r) := handler e in (done ++ more, r)
  | finished => finished
  end.

Declare Scope py_scope.
Delimit Scope py_scope with py.
Notation "x <- m ;; k" := (bind m (fun x => k))
  (at level 61, m at next level, right associativity) : py_scope.
Notation "m ;; k" := (bind m (fun _ => k))
  (at level 61, right associativity) : py_scope.
Local Open Scope py_scope.

(** Pieces of the literals: ["\n"] and ["=" * 60]. *)
Definition nl : string := String (ascii_of_nat 10) EmptyString.
Definition rule : string := String.concat EmptyString (repeat "="%string 60).

Definition events {A} (m : M A) : list event := fst m.
Definition outcome {A} (m : M A) : result A := snd m.

(** ** load_atc_samples *)

(** The loop [for i, item in enumerate(dataset)]: fetching position [i]
    comes first (and may raise), then the [break] test, then the lookups. *)
Fixpoint enumerate_loop (i num_samples : Z) (dataset : Dataset)
  (samples : list Sample) : result (list Sample) :=
  match dataset with
  | [] => Ok samples
  | Raise e :: _ => Raise e
  | Ok item :: rest =>
      if i >=? num_samples then Ok samples
      else
        match item_audio item with
        | Raise e => Raise e
        | Ok a =>
            match item_text item with
            | Raise e => Raise e
            | Ok t =>
                enumerate_loop (i + 1) num_samples rest
                  (samples ++ [{| audio := a; text := t; id := i |}])
            end
        end
  end.

Definition load_atc_samples (env : Env) (num_samples : Z) : M (list Sample) :=
  print (Text "Loading ATC dataset from HuggingFace...") ;;
  try_except
    (dataset <- lift (load_dataset env) ;;
     samples <- lift (enumerate_loop 0 num_samples dataset []) ;;
     print (Loaded (Z.of_nat (length samples))) ;;
     ret samples)
    (fun e =>
       print (LoadError e) ;;
       ret []).

(** ** The two backends *)

Definition sentinel (e : exn) : string := ("[Error: " ++ str e ++ "]")%string.

Definition transcribe_with_generic_whisper (env : Env)
  (audio_array : list Q) (sample_rate : Z) : M string :=
  emit (Transcribe GenericWhisper audio_array sample_rate) ;;
  match generic_whisper env audio_array sample_rate with
  | Ok transcription => ret (PyStr.strip transcription)
  | Raise e => ret (sentinel e)
  end.

Definition transcribe_with_atc_whisper (env : Env)
  (audio_array : list Q) (sample_rate : Z) : M string :=
  emit (Transcribe AtcWhisper audio_array sample_rate) ;;
  match atc_whisper env audio_array sample_rate with
  | Ok transcription => ret (PyStr.strip transcription)
  | Raise e => ret (sentinel e)
  end.

(** ** run_comparison_test *)

(** A call of [calculate_wer] made by the run. *)
Definition scored (env : Env) (reference hypothesis : string) : M Q :=
  emit (Score reference hypothesis) ;;
  lift (calculate_wer (jiwer env) reference hypothesis).

(** The loop [for sample in samples], threading the two lists. *)
Fixpoint comparison_loop (env : Env) (samples : list Sample)
  (generic_wers atc_wers : list Q) : M (list Q * list Q) :=
  match samples with
  | [] => ret (generic_wers, atc_wers)
  | sample :: rest =>
      let ground_truth := text sample in
      let audio_array := array (audio sample) in
      let sample_rate := sampling_rate (audio sample) in
      print (SampleHeader (id sample + 1)) ;;
      print (GroundTruth ground_truth) ;;
      print (Text EmptyString) ;;
      print (Text "Testing generic Whisper (small.en)...") ;;
      generic_result <- transcribe_with_generic_whisper env audio_array sample_rate ;;
      generic_wer <- scored env ground_truth generic_result ;;
      print (Transcription generic_result) ;;
      print (Wer generic_wer) ;;
      print (Text (nl ++ "Testing ATC-tuned Whisper (medium.en)...")) ;;
      atc_result <- transcribe_with_atc_whisper env audio_array sample_rate ;;
      atc_wer <- scored env ground_truth atc_result ;;
      print (Transcription atc_result) ;;
      print (Wer atc_wer) ;;
      comparison_loop env rest (generic_wers ++ [generic_wer]) (atc_wers ++ [atc_wer])
  end.

(** The builtin [sum] over a list of floats.  The sum, and the division in
    [average], are exact here: the rounding Python does at each [+] and at
    [/] is not modelled.  Whether such a value is zero, its sign and its
    bounds are the same with and without rounding; its comparison with
    another constant, such as the 0.15 of [recommendation], need not be. *)
Definition sum_floats (xs : list Q) : Q := fold_left Qplus xs 0%Q.

(** [sum(wers) / len(wers) if wers else 0] *)
Definition average (wers : list Q) : Q :=
  match wers with
  | [] => 0%Q
  | _ => (sum_floats wers / inject_Z (Z.of_nat (length wers)))%Q
  end.

(** Python's [/]: a zero divisor raises. *)
Definition truediv (a b : Q) : result Q :=
  if Qeq_bool b 0 then Raise (ZeroDivisionError "float division by zero")
  else Ok (a / b)%Q.

(** The test [avg_atc_wer < 0.15] and the line it selects. *)
Definition recommendation (avg_atc_wer : Q) : Recommendation :=
  if Qlt_le_dec avg_atc_wer 0.15 then RecommendSpecialized
  else RecommendLargerSpecialized.

(** Everything after the loop: the SUMMARY block. *)
Definition summary (generic_wers atc_wers : list Q) : M unit :=
  print (Text (nl ++ rule)) ;;
  print (Text "SUMMARY") ;;
  print (Text rule) ;;
  let avg_generic_wer := average generic_wers in
  let avg_atc_wer := average atc_wers in
  print (AverageWer GenericWhisper avg_generic_wer) ;;
  print (AverageWer AtcWhisper avg_atc_wer) ;;
  ratio <- lift (truediv (avg_generic_wer - avg_atc_wer) avg_generic_wer) ;;
  print (Improvement (ratio * 100)) ;;
  print (Text EmptyString) ;;
  print (Verdict (recommendation avg_atc_wer)).

Definition run_comparison_test (env : Env) : M unit :=
  print (Text rule) ;;
  print (Text "ATC TRANSCRIPTION QUALITY TEST") ;;
  print (Text rule) ;;
  print (Text EmptyString) ;;
  samples <- load_atc_samples env 5 ;;
  match samples with
  | [] => print (Text "No samples loaded. Please install: pip install datasets")
  | _ =>
      wers <- comparison_loop env samples [] [] ;;
      summary (fst wers) (snd wers)
  end.

(** ** check_dependencies and the script entry *)

Definition required_packages : list string :=
  ["datasets"; "torch"; "transformers"; "soundfile"]%string.

(** The four blocks [try: import <package>  except ImportError:
    missing.append("<package>")], one after the other: an [ImportError] adds
    the package to [missing], any other exception leaves the function. *)
Fixpoint try_imports (env : Env) (packages missing : list string)
  : result (list string) :=
  match packages with
  | [] => Ok missing
  | package :: rest =>
      match import_package env package with
      | Ok _ => try_imports env rest missing
      | Raise (ImportError _) => try_imports env rest (missing ++ [package])
      | Raise e => Raise e
      end
  end.

Definition check_dependencies (env : Env) : M bool :=
  missing <- lift (try_imports env required_packages []) ;;
  match missing with
  | [] => ret true
  | _ =>
      print (Text "Missing dependencies. Install with:") ;;
      print (PipInstall missing) ;;
      ret false
  end.

(** The [if __name__ == "__main__":] block.  [argv] is the command line the
    process was started with; the block never reads it. *)
Definition main (argv : list string) (env : Env) : M unit :=
  ready <- check_dependencies env ;;
  if ready then run_comparison_test env
  else
    print (Text (nl ++ "Alternatively, run the quick demo without ML dependencies:")) ;;
    print (Text "  python test_atc_transcription.py --demo").

(** ** Auxiliary notions used in the statements *)

(** The number of positions of [zip(ref_words, hyp_words)] whose two words
    differ. *)
Fixpoint mismatches (ref_words hyp_words : list string) : nat :=
  match ref_words, hyp_words with
  | r :: ref_rest, h :: hyp_rest =>
      (if String.eqb r h then 0 else 1) + mismatches ref_rest hyp_rest
  | _, _ => 0
  end%nat.

(** The lowercased whitespace tokenization both branches start from. *)
Definition words (s : string) : list string := PyStr.split (PyStr.lower s).

(** The hypothesis a backend hands to the scorer for a sample. *)
Definition hypothesis_of (m : model) (sample : Sample) : string :=
  match m (array (audio sample)) (sampling_rate (audio sample)) with
  | Ok transcription => PyStr.strip transcription
  | Raise e => sentinel e
  end.

(** What one iteration of the comparison loop does, when the scorer returns
    [wer_of reference hypothesis]. *)
Definition sample_events (env : Env) (wer_of : string -> string -> Q)
  (sample : Sample) : list event :=
  let ground_truth := text sample in
  let generic_result := hypothesis_of (generic_whisper env) sample in
  let atc_result := hypothesis_of (atc_whisper env) sample in
  [ Print (SampleHeader (id sample + 1));
    Print (GroundTruth ground_truth);
    Print (Text EmptyString);
    Print (Text "Testing generic Whisper (small.en)...");
    Transcribe GenericWhisper (array (audio sample)) (sampling_rate (audio sample));
    Score ground_truth generic_result;
    Print (Transcription generic_result);
    Print (Wer (wer_of ground_truth generic_result));
    Print (Text (nl ++ "Testing ATC-tuned Whisper (medium.en)..."));
    Transcribe AtcWhisper (array (audio sample)) (sampling_rate (audio sample));
    Score ground_truth atc_result;
    Print (Transcription atc_result);
    Print (Wer (wer_of ground_truth atc_result)) ].

(** Observations on a list of events. *)
Definition is_transcribe (b : backend) (ev : event) : bool :=
  match ev, b with
  | Transcribe GenericWhisper _ _, GenericWhisper => true
  | Transcribe AtcWhisper _ _, AtcWhisper => true
  | _, _ => false
  end.

Definition invocations (b : backend) (tr : list event) : nat :=
  length (filter (is_transcribe b) tr).

Definition scores (tr : list event) : list (string * string) :=
  flat_map (fun ev => match ev with Score r h => [(r, h)] | _ => [] end) tr.

Definition verdicts (tr : list event) : list Recommendation :=
  flat_map (fun ev => match ev with Print (Verdict r) => [r] | _ => [] end) tr.

Definition improvements (tr : list event) : list Q :=
  flat_map (fun ev => match ev with Print (Improvement p) => [p] | _ => [] end) tr.

(** A corpus entry with both fields present, and the samples
    [load_atc_samples] makes of such entries, numbered from [i]. *)
Definition well_formed (row : Audio * string) : result Item :=
  Ok {| item_audio := Ok (fst row); item_text := Ok (snd row) |}.

Fixpoint number_from (i : Z) (rows : list (Audio * string)) : list Sample :=
  match rows with
  | [] => []
  | row :: rest =>
      {| audio := fst row; text := snd row; id := i |} :: number_from (i + 1) rest
  end.

(** The body of the [try] in [load_atc_samples], without its prints. *)
Definition corpus_access (env : Env) (num_samples : Z) : result (list Sample) :=
  match load_dataset env with
  | Raise e => Raise e
  | Ok dataset => enumerate_loop 0 num_samples dataset []
  end.

(** The two score lists the loop hands to the summary, when the scorer
    returns [wer_of reference hypothesis]. *)
Definition generic_scores (env : Env) (wer_of : string -> string -> Q)
  (samples : list Sample) : list Q :=
  map (fun s => wer_of (text s) (hypothesis_of (generic_whisper env) s)) samples.

Definition atc_scores (env : Env) (wer_of : string -> string -> Q)
  (samples : list Sample) : list Q :=
  map (fun s => wer_of (text s) (hypothesis_of (atc_whisper env) s)) samples.

(** The lines printed before the samples are loaded. *)
Definition banner : list event :=
  [ Print (Text rule); Print (Text "ATC TRANSCRIPTION QUALITY TEST");
    Print (Text rule); Print (Text EmptyString) ].

(** ** Concrete environments for the examples *)

(** Recording number [n], told apart from the others by its length. *)
Definition clip (n : nat) : Audio :=
  {| array := repeat (1 # 2)%Q n; sampling_rate := 16000 |}.

(** A model that answers recording [n] with the [n]-th text. *)
Definition replies (texts : list string) : model :=
  fun audio_array _ => Ok (nth (length audio_array) texts EmptyString).

(** A model that cannot be loaded. *)
Definition unavailable (msg : string) : model :=
  fun _ _ => Raise (Exception msg).

Definition corpus_of (references : list string) : list (Audio * string) :=
  combine (map clip (seq 0 (length references))) references.

(** An environment without jiwer, with all four required packages. *)
Definition offline_env (dataset : result Dataset) (generic atc : model) : Env :=
  {| jiwer := None;
     load_dataset := dataset;
     generic_whisper := generic;
     atc_whisper := atc;
     import_package := fun _ => Ok tt |}.

Definition two_references : list string :=
  [ "cleared for takeoff runway two seven";
    "descend and maintain four thousand" ]%string.

Definition ten_references : list string :=
  repeat "climb flight level three five zero"%string 10.

(** Both models unavailable, over the two-reference corpus. *)
Definition failing_env : Env :=
  offline_env (Ok (map well_formed (corpus_of two_references)))
    (unavailable "whisper-small.en not found")
    (unavailable "out of memory").

(** The corpus cannot be reached at all. *)
Definition no_corpus_env : Env :=
  offline_env (Raise (ImportError "No module named 'datasets'"))
    (replies two_references) (replies two_references).

(** The second entry of the corpus has no "text" field. *)
Definition malformed_corpus_env : Env :=
  offline_env
    (Ok [ well_formed (clip 0, "cleared for takeoff runway two seven"%string);
          Ok {| item_audio := Ok (clip 1);
                item_text := Raise (Exception "'text'") |} ])
    (replies two_references) (replies two_references).

(** Two samples; the generic model mishears both, the tuned one neither. *)
Definition two_sample_env : Env :=
  offline_env (Ok (map well_formed (corpus_of two_references)))
    (replies [ "clear for take off runway two seven"; "descend maintain 4000" ]%string)
    (replies two_references).

(** Two samples that both models transcribe word for word. *)
Definition perfect_env : Env :=
  offline_env (Ok (map well_formed (corpus_of two_references)))
    (replies two_references) (replies two_references).

(** One sample of five words, of which the tuned model gets one wrong. *)
Definition one_in_five_env : Env :=
  offline_env
    (Ok (map well_formed (corpus_of ["descend and maintain four thousand"%string])))
    (replies ["descend maintain 4000"%string])
    (replies ["descend and maintain for thousand"%string]).

(** Ten samples in the corpus. *)
Definition ten_sample_env : Env :=
  offline_env (Ok (map well_formed (corpus_of ten_references)))
    (replies (repeat "climb flight level 350"%string 10))
    (replies ten_references).

(** torch is not installed. *)
Definition no_torch_env : Env :=
  {| jiwer := None;
     load_dataset := Ok (map well_formed (corpus_of two_references));
     generic_whisper := unavailable "No module named 'torch'";
     atc_whisper := unavailable "No module named 'torch'";
     import_package :=
       fun package =>
         if String.eqb package "torch"
         then Raise (ImportError "No module named 'torch'")
         else Ok tt |}.

(** ** Notions used in the further properties *)

(** Sample [s] was made from the corpus entry [entry]: the entry was
    fetched and both lookups gave the sample's fields. *)
Definition read_from (entry : result Item) (s : Sample) : Prop :=
  exists item,
    entry = Ok item
    /\ item_audio item = Ok (audio s)
    /\ item_text item = Ok (text s).

(** The exception an entry raises when it is fetched, and the one it raises
    when its fields are looked up ("audio" first, then "text"). *)
Definition fetch_error (entry : result Item) : option exn :=
  match entry with
  | Raise e => Some e
  | Ok _ => None
  end.

Definition field_error (entry : result Item) : option exn :=
  match entry with
  | Raise _ => None
  | Ok item =>
      match item_audio item with
      | Raise e => Some e
      | Ok _ =>
          match item_text item with
          | Raise e => Some e
          | Ok _ => None
          end
      end
  end.

(** The model calls of a run, in order. *)
Definition calls (tr : list event) : list (backend * Audio) :=
  flat_map (fun ev =>
              match ev with
              | Transcribe b audio_array sample_rate =>
                  [(b, {| array := audio_array; sampling_rate := sample_rate |})]
              | _ => []
              end) tr.

(** The events of one iteration of the comparison loop, cut where the two
    calls of [calculate_wer] return: up to the generic score, the two lines
    that report it, up to the specialized score, the two lines that report
    it. *)
Definition generic_block (env : Env) (sample : Sample) : list event :=
  [ Print (SampleHeader (id sample + 1));
    Print (GroundTruth (text sample));
    Print (Text EmptyString);
    Print (Text "Testing generic Whisper (small.en)...");
    Transcribe GenericWhisper (array (audio sample)) (sampling_rate (audio sample));
    Score (text sample) (hypothesis_of (generic_whisper env) sample) ].

Definition generic_report (env : Env) (sample : Sample) (generic_wer : Q) : list event :=
  [ Print (Transcription (hypothesis_of (generic_whisper env) sample));
    Print (Wer generic_wer) ].

Definition atc_block (env : Env) (sample : Sample) : list event :=
  [ Print (Text (nl ++ "Testing ATC-tuned Whisper (medium.en)..."));
    Transcribe AtcWhisper (array (audio sample)) (sampling_rate (audio sample));
    Score (text sample) (hypothesis_of (atc_whisper env) sample) ].

Definition atc_report (env : Env) (sample : Sample) (atc_wer : Q) : list event :=
  [ Print (Transcription (hypothesis_of (atc_whisper env) sample));
    Print (Wer atc_wer) ].

(** Both hypotheses of a sample can be scored. *)
Definition scorable (env : Env) (sample : Sample) : Prop :=
  (exists q, calculate_wer (jiwer env) (text sample)
               (hypothesis_of (generic_whisper env) sample) = Ok q)
  /\ (exists q, calculate_wer (jiwer env) (text sample)
                  (hypothesis_of (atc_whisper env) sample) = Ok q).

(** The averages a run prints. *)
Definition averages (tr : list event) : list (backend * Q) :=
  flat_map (fun ev => match ev with Print (AverageWer b q) => [(b, q)] | _ => [] end) tr.

(** A scorer that refuses an empty reference, as [jiwer.wer] does with a
    [ValueError], and otherwise agrees with the fallback. *)
Definition strict_scorer : scorer :=
  fun reference hypothesis =>
    match reference with
    | EmptyString => Raise (Exception "one or more references are empty strings")
    | _ => Ok (fallback_wer reference hypothesis)
    end.

(** A corpus whose second entry has an empty transcript, scored by
    [strict_scorer]. *)
Definition unlabeled_entry_env : Env :=
  {| jiwer := Some strict_scorer;
     load_dataset :=
       Ok (map well_formed
             (corpus_of ["cleared for takeoff runway two seven"%string; EmptyString]));
     generic_whisper := replies two_references;
     atc_whisper := replies two_references;
     import_package := fun _ => Ok tt |}.

(** What [run_comparison_test] does once [samples] is loaded. *)
Definition compare_loaded (env : Env) (samples : list Sample) : M unit :=
  match samples with
  | [] => print (Text "No samples loaded. Please install: pip install datasets")
  | _ =>
      wers <- comparison_loop env samples [] [] ;;
      summary (fst wers) (snd wers)
  end.

(** The calls of both models on each sample in turn, generic first. *)
Definition calls_for (samples : list Sample) : list (backend * Audio) :=
  flat_map (fun s => [(GenericWhisper, audio s); (AtcWhisper, audio s)]) samples.

(** The packages of the preflight whose import raises [ImportError]. *)
Definition is_missing (env : Env) (package : string) : bool :=
  match import_package env package with
  | Raise (ImportError _) => true
  | _ => false
  end.

(** Both models unavailable, jiwer installed, the second transcript empty. *)
Definition failing_strict_env : Env :=
  {| jiwer := Some strict_scorer;
     load_dataset :=
       Ok (map well_formed
             (corpus_of ["cleared for takeoff runway two seven"%string; EmptyString]));
     generic_whisper := unavailable "whisper-small.en not found";
     atc_whisper := unavailable "out of memory";
     import_package := fun _ => Ok tt |}.

(** torch is installed but broken: importing it raises an [OSError]. *)
Definition broken_torch_env : Env :=
  {| jiwer := None;
     load_dataset := Ok (map well_formed (corpus_of two_references));
     generic_whisper := unavailable "libtorch_cpu.so: cannot open shared object file";
     atc_whisper := unavailable "libtorch_cpu.so: cannot open shared object file";
     import_package :=
       fun package =>
         if String.eqb package "torch"
         then Raise (Exception "libtorch_cpu.so: cannot open shared object file")
         else if String.eqb package "datasets"
              then Raise (ImportError "No module named 'datasets'")
              else Ok tt |}.

(** * Properties *)

(** ** Sanity checks of the embedding on concrete inputs *)

Example split_example :
  PyStr.split "  Cleared  for takeoff " = ["Cleared"; "for"; "takeoff"]%string.
Proof. reflexivity. Qed.

Example lower_example : PyStr.lower "Runway 27L" = "runway 27l"%string.
Proof. reflexivity. Qed.

Example strip_example : PyStr.strip "  descend and maintain " = "descend and maintain"%string.
Proof. reflexivity. Qed.

Example fallback_one_substitution :
  calculate_wer None "a b c" "A x C" = Ok (1 # 3).
Proof. reflexivity. Qed.

Example fallback_is_positional :
  calculate_wer None "a b c d" "b c d" = Ok 1%Q.
Proof. reflexivity. Qed.

(** ** The error count of the fallback *)

Section ErrorCount.

Implicit Types ref_words hyp_words : list string.

Lemma zip_errors_mismatches ref_words : forall hyp_words errors,
  zip_errors errors ref_words hyp_words
  = errors + Z.of_nat (mismatches ref_words hyp_words).
Proof.
  induction ref_words as [|r ref_rest IH]; intros [|h hyp_rest] errors;
    cbn [zip_errors mismatches]; try lia.
  rewrite IH. destruct (String.eqb r h); lia.
Qed.

Lemma filter_shift (f : nat -> bool) (l : list nat) :
  filter f (map S l) = map S (filter (fun i => f (S i)) l).
Proof.
  induction l as [|i l IH]; cbn; [reflexivity|].
  rewrite IH. destruct (f (S i)); reflexivity.
Qed.

Lemma mismatches_by_index ref_words : forall hyp_words,
  mismatches ref_words hyp_words
  = length (filter (disagree_at ref_words hyp_words)
              (seq 0 (Nat.min (length ref_words) (length hyp_words)))).
Proof.
  induction ref_words as [|r ref_rest IH]; intros [|h hyp_rest];
    try reflexivity.
  cbn [mismatches length Nat.min seq filter].
  rewrite <- seq_shift, filter_shift, IH.
  change (fun i => disagree_at (r :: ref_rest) (h :: hyp_rest) (S i))
    with (disagree_at ref_rest hyp_rest).
  change (disagree_at (r :: ref_rest) (h :: hyp_rest) 0)
    with (negb (String.eqb r h)).
  destruct (String.eqb r h); cbn [negb length Nat.add];
    now rewrite length_map.
Qed.

Lemma error_count_as_specified ref_words hyp_words :
  zip_errors (Z.abs (Z.of_nat (length ref_words) - Z.of_nat (length hyp_words)))
    ref_words hyp_words
  = spec_error_count ref_words hyp_words.
Proof.
  unfold spec_error_count.
  now rewrite zip_errors_mismatches, mismatches_by_index.
Qed.

Lemma mismatches_same ref_words : mismatches ref_words ref_words = 0%nat.
Proof.
  induction ref_words as [|r ref_rest IH]; cbn; [reflexivity|].
  now rewrite String.eqb_refl.
Qed.

Lemma no_mismatch_same_length ref_words : forall hyp_words,
  length ref_words = length hyp_words ->
  mismatches ref_words hyp_words = 0%nat ->
  ref_words = hyp_words.
Proof.
  induction ref_words as [|r ref_rest IH]; intros [|h hyp_rest] Hlen Hmis;
    try discriminate; [reflexivity|].
  cbn in Hlen, Hmis. injection Hlen as Hlen.
  destruct (String.eqb_spec r h) as [->|]; [|discriminate].
  f_equal. now apply IH.
Qed.

(** The count the fallback divides is zero exactly on equal sequences. *)
Lemma error_count_zero_iff ref_words hyp_words :
  zip_errors (Z.abs (Z.of_nat (length ref_words) - Z.of_nat (length hyp_words)))
    ref_words hyp_words = 0
  <-> ref_words = hyp_words.
Proof.
  rewrite zip_errors_mismatches. split.
  - intros H. apply no_mismatch_same_length; lia.
  - intros ->. rewrite mismatches_same. lia.
Qed.

Lemma error_count_nonneg ref_words hyp_words :
  0 <= zip_errors (Z.abs (Z.of_nat (length ref_words) - Z.of_nat (length hyp_words)))
         ref_words hyp_words.
Proof. rewrite zip_errors_mismatches. lia. Qed.

End ErrorCount.

(** ** The fallback score *)

Section FallbackScore.

Local Open Scope Q_scope.

(** The value [min(1.0, errors / n)] for a count [errors >= 0] and a
    reference of [S n] words. *)
Lemma clamped_ratio_bounds (errors : Z) (n : nat) :
  (0 <= errors)%Z ->
  0 <= Qmin 1 (errors # Pos.of_nat (S n)) <= 1.
Proof.
  intros Hpos. split; [|apply Q.le_min_l].
  apply Q.min_glb; [discriminate|].
  unfold Qle; cbn. lia.
Qed.

Lemma clamped_ratio_zero_iff (errors : Z) (n : nat) :
  Qmin 1 (errors # Pos.of_nat (S n)) == 0 <-> errors = 0%Z.
Proof.
  destruct (Q.min_spec 1 (errors # Pos.of_nat (S n))) as [[Hlt ->]|[Hle ->]].
  - split; [discriminate|]. intros ->. revert Hlt. unfold Qlt; cbn. lia.
  - unfold Qeq; cbn. lia.
Qed.

Lemma ratio_as_division (errors : Z) (n : nat) :
  errors # Pos.of_nat (S n) == inject_Z errors / inject_Z (Z.of_nat (S n)).
Proof.
  rewrite Qmake_Qdiv. now replace (Z.pos (Pos.of_nat (S n))) with (Z.of_nat (S n)) by lia.
Qed.

Lemma fallback_wer_unfold reference hypothesis :
  fallback_wer reference hypothesis =
  match words reference with
  | [] => match words hypothesis with [] => 0 | _ => 1 end
  | _ =>
      Qmin 1 (zip_errors
                (Z.abs (Z.of_nat (length (words reference))
                        - Z.of_nat (length (words hypothesis))))
                (words reference) (words hypothesis)
              # Pos.of_nat (length (words reference)))
  end.
Proof. reflexivity. Qed.

Lemma fallback_wer_refines_spec reference hypothesis :
  fallback_wer reference hypothesis == spec_fallback_wer reference hypothesis.
Proof.
  rewrite fallback_wer_unfold. unfold spec_fallback_wer. fold (words reference).
  fold (words hypothesis).
  destruct (words reference) as [|r ref_rest] eqn:Href.
  - destruct (words hypothesis); reflexivity.
  - rewrite error_count_as_specified. cbn [length Nat.eqb].
    apply Q.min_compat; [reflexivity|]. apply ratio_as_division.
Qed.

Lemma fallback_wer_bounds reference hypothesis :
  0 <= fallback_wer reference hypothesis <= 1.
Proof.
  rewrite fallback_wer_unfold.
  destruct (words reference) as [|r ref_rest] eqn:Href.
  - destruct (words hypothesis); split; discriminate.
  - apply clamped_ratio_bounds, error_count_nonneg.
Qed.

Lemma fallback_wer_zero_iff reference hypothesis :
  fallback_wer reference hypothesis == 0 <-> words reference = words hypothesis.
Proof.
  rewrite fallback_wer_unfold.
  destruct (words reference) as [|r ref_rest] eqn:Href.
  - destruct (words hypothesis); split; (reflexivity || discriminate).
  - cbn [length]. rewrite clamped_ratio_zero_iff.
    apply (error_count_zero_iff (r :: ref_rest)).
Qed.

End FallbackScore.

(** ** Claims about the scorer *)

(** C1. With jiwer unavailable, [calculate_wer] returns a value, and that
    value is the one the specified fallback algorithm computes: 0 or 1 on an
    empty reference according to whether the hypothesis has words, and
    otherwise [min(1, errorCount / referenceWordCount)], where the count is
    the length difference plus the number of disagreeing positions below the
    shorter length. *)
Theorem C1_fallback_computes_specified_algorithm :
  forall reference hypothesis : string,
  exists q : Q,
    calculate_wer None reference hypothesis = Ok q
    /\ (q == spec_fallback_wer reference hypothesis)%Q.
Proof.
  intros reference hypothesis. exists (fallback_wer reference hypothesis).
  split; [reflexivity|apply fallback_wer_refines_spec].
Qed.

(** C7. The fallback score of any two strings lies between 0 and 1. *)
Theorem C7_fallback_bounded :
  forall reference hypothesis : string,
  exists q : Q,
    calculate_wer None reference hypothesis = Ok q /\ (0 <= q /\ q <= 1)%Q.
Proof.
  intros reference hypothesis. exists (fallback_wer reference hypothesis).
  split; [reflexivity|apply fallback_wer_bounds].
Qed.

(** C10. The fallback score is 0 exactly when the lowercased whitespace
    tokenizations of the two strings are the same word sequence, and is
    strictly positive whenever they differ. *)
Theorem C10_fallback_zero_iff_same_words :
  forall reference hypothesis : string,
  exists q : Q,
    calculate_wer None reference hypothesis = Ok q
    /\ ((q == 0)%Q <-> words reference = words hypothesis)
    /\ (words reference <> words hypothesis -> (0 < q)%Q).
Proof.
  intros reference hypothesis. exists (fallback_wer reference hypothesis).
  split; [reflexivity|]. split; [apply fallback_wer_zero_iff|].
  intros Hdiff.
  destruct (Qle_lt_or_eq _ _ (proj1 (fallback_wer_bounds reference hypothesis)))
    as [H|H]; [exact H|].
  exfalso. apply Hdiff, fallback_wer_zero_iff. now symmetry.
Qed.

(** ** Running effects *)

Section Effects.

Context {A B : Type}.

Lemma bind_ok (tr : list event) (a : A) (f : A -> M B) :
  bind (tr, Ok a) f = (tr ++ events (f a), outcome (f a)).
Proof. cbn. now destruct (f a). Qed.

Lemma bind_raise (tr : list event) (e : exn) (f : A -> M B) :
  bind (tr, Raise e) f = (tr, Raise e).
Proof. reflexivity. Qed.

Lemma events_bind (m : M A) (f : A -> M B) :
  events (bind m f)
  = events m ++ match outcome m with Ok a => events (f a) | Raise _ => [] end.
Proof.
  destruct m as [tr [a|e]]; [rewrite bind_ok|rewrite bind_raise]; cbn;
    [reflexivity|now rewrite app_nil_r].
Qed.

Lemma outcome_bind (m : M A) (f : A -> M B) :
  outcome (bind m f)
  = match outcome m with Ok a => outcome (f a) | Raise e => Raise e end.
Proof. destruct m as [tr [a|e]]; [now rewrite bind_ok|reflexivity]. Qed.

End Effects.

Lemma M_eta {A} (m : M A) : m = (events m, outcome m).
Proof. now destruct m. Qed.

Lemma invocations_app (b : backend) (tr tr' : list event) :
  invocations b (tr ++ tr') = (invocations b tr + invocations b tr')%nat.
Proof. unfold invocations. now rewrite filter_app, length_app. Qed.

Lemma scores_app (tr tr' : list event) : scores (tr ++ tr') = scores tr ++ scores tr'.
Proof. apply flat_map_app. Qed.

(** ** The comparison loop *)

Section ComparisonLoop.

Variable env : Env.
Variable wer_of : string -> string -> Q.
Hypothesis scorer_returns :
  forall reference hypothesis,
    calculate_wer (jiwer env) reference hypothesis = Ok (wer_of reference hypothesis).

Lemma generic_call (sample : Sample) :
  transcribe_with_generic_whisper env (array (audio sample))
    (sampling_rate (audio sample))
  = ([Transcribe GenericWhisper (array (audio sample)) (sampling_rate (audio sample))],
     Ok (hypothesis_of (generic_whisper env) sample)).
Proof.
  unfold transcribe_with_generic_whisper, hypothesis_of.
  now destruct (generic_whisper env _ _).
Qed.

Lemma atc_call (sample : Sample) :
  transcribe_with_atc_whisper env (array (audio sample))
    (sampling_rate (audio sample))
  = ([Transcribe AtcWhisper (array (audio sample)) (sampling_rate (audio sample))],
     Ok (hypothesis_of (atc_whisper env) sample)).
Proof.
  unfold transcribe_with_atc_whisper, hypothesis_of.
  now destruct (atc_whisper env _ _).
Qed.

Lemma scored_call (reference hypothesis : string) :
  scored env reference hypothesis
  = ([Score reference hypothesis], Ok (wer_of reference hypothesis)).
Proof. unfold scored. now rewrite scorer_returns. Qed.

(** With a scorer that returns, the loop runs to the end of [samples]: it
    does [sample_events] for each sample in turn and appends one score per
    sample to each list. *)
Lemma comparison_loop_runs (samples : list Sample) :
  forall generic_wers atc_wers,
    comparison_loop env samples generic_wers atc_wers
    = (flat_map (sample_events env wer_of) samples,
       Ok (generic_wers
             ++ map (fun s => wer_of (text s) (hypothesis_of (generic_whisper env) s))
                  samples,
           atc_wers
             ++ map (fun s => wer_of (text s) (hypothesis_of (atc_whisper env) s))
                  samples)).
Proof.
  induction samples as [|sample rest IH]; intros generic_wers atc_wers.
  - cbn. now rewrite !app_nil_r.
  - cbn [comparison_loop]. unfold print, emit.
    repeat (rewrite ?generic_call, ?atc_call, ?scored_call, ?IH;
            rewrite bind_ok; cbv beta).
    cbn. now rewrite <- !app_assoc.
Qed.

Lemma sample_events_invocations (b : backend) (samples : list Sample) :
  invocations b (flat_map (sample_events env wer_of) samples) = length samples.
Proof.
  induction samples as [|sample rest IH]; [reflexivity|].
  cbn [flat_map length]. rewrite invocations_app, IH.
  now destruct b.
Qed.

Lemma sample_events_scores (samples : list Sample) :
  scores (flat_map (sample_events env wer_of) samples)
  = flat_map (fun s => [ (text s, hypothesis_of (generic_whisper env) s);
                         (text s, hypothesis_of (atc_whisper env) s) ]) samples.
Proof.
  induction samples as [|sample rest IH]; [reflexivity|].
  cbn [flat_map]. now rewrite scores_app, IH.
Qed.

End ComparisonLoop.

(** ** Loading samples *)

Lemma enumerate_loop_well_formed (rows : list (Audio * string)) :
  forall (i num_samples : Z) (samples : list Sample),
    enumerate_loop i num_samples (map well_formed rows) samples
    = Ok (samples ++ number_from i (firstn (Z.to_nat (num_samples - i)) rows)).
Proof.
  induction rows as [|row rest IH]; intros i num_samples samples.
  - cbn. now rewrite firstn_nil, app_nil_r.
  - cbn [map well_formed enumerate_loop item_audio item_text].
    destruct (Z.geb_spec i num_samples) as [Hge|Hlt].
    + replace (Z.to_nat (num_samples - i)) with 0%nat by lia.
      cbn. now rewrite app_nil_r.
    + rewrite IH.
      replace (Z.to_nat (num_samples - i))
        with (S (Z.to_nat (num_samples - (i + 1)))) by lia.
      cbn. now rewrite <- app_assoc.
Qed.

Lemma number_from_length (rows : list (Audio * string)) :
  forall i, length (number_from i rows) = length rows.
Proof. induction rows as [|row rest IH]; intros i; cbn; [|rewrite IH]; reflexivity. Qed.

Lemma number_from_ids (rows : list (Audio * string)) :
  forall i : nat,
    map (fun s : Sample => id s) (number_from (Z.of_nat i) rows)
    = map Z.of_nat (seq i (length rows)).
Proof.
  induction rows as [|row rest IH]; intros i; cbn; [reflexivity|].
  f_equal. rewrite <- IH. do 2 f_equal. lia.
Qed.

Lemma load_atc_samples_loaded (env : Env) (num_samples : Z) (samples : list Sample) :
  corpus_access env num_samples = Ok samples ->
  load_atc_samples env num_samples
  = ([ Print (Text "Loading ATC dataset from HuggingFace...");
       Print (Loaded (Z.of_nat (length samples))) ],
     Ok samples).
Proof.
  unfold corpus_access, load_atc_samples. destruct (load_dataset env) as [dataset|e];
    [|discriminate].
  cbn. now intros ->.
Qed.

Lemma load_atc_samples_failed (env : Env) (num_samples : Z) (e : exn) :
  corpus_access env num_samples = Raise e ->
  load_atc_samples env num_samples
  = ([ Print (Text "Loading ATC dataset from HuggingFace...");
       Print (LoadError e) ],
     Ok []).
Proof.
  unfold corpus_access, load_atc_samples. destruct (load_dataset env) as [dataset|e'].
  - cbn. now intros ->.
  - cbn. now intros [= ->].
Qed.

Lemma load_atc_samples_quiet (env : Env) (num_samples : Z) :
  (forall b, invocations b (events (load_atc_samples env num_samples)) = 0%nat)
  /\ scores (events (load_atc_samples env num_samples)) = []
  /\ verdicts (events (load_atc_samples env num_samples)) = [].
Proof.
  destruct (corpus_access env num_samples) as [samples|e] eqn:H.
  - rewrite (load_atc_samples_loaded _ _ _ H). now repeat split.
  - rewrite (load_atc_samples_failed _ _ _ H). now repeat split.
Qed.

(** ** The summary *)

Lemma summary_events (generic_wers atc_wers : list Q) :
  summary generic_wers atc_wers
  = ([ Print (Text (nl ++ rule)); Print (Text "SUMMARY"); Print (Text rule);
       Print (AverageWer GenericWhisper (average generic_wers));
       Print (AverageWer AtcWhisper (average atc_wers)) ]
     ++ (if Qeq_bool (average generic_wers) 0 then []
         else [ Print (Improvement
                         ((average generic_wers - average atc_wers)
                          / average generic_wers * 100)%Q);
                Print (Text EmptyString);
                Print (Verdict (recommendation (average atc_wers))) ]),
     if Qeq_bool (average generic_wers) 0
     then Raise (ZeroDivisionError "float division by zero")
     else Ok tt).
Proof.
  unfold summary, truediv. now destruct (Qeq_bool (average generic_wers) 0).
Qed.

Lemma summary_quiet (generic_wers atc_wers : list Q) :
  (forall b, invocations b (events (summary generic_wers atc_wers)) = 0%nat)
  /\ scores (events (summary generic_wers atc_wers)) = [].
Proof.
  rewrite summary_events.
  now destruct (Qeq_bool (average generic_wers) 0).
Qed.

(** ** The whole run *)

Lemma run_without_samples (env : Env) :
  outcome (load_atc_samples env 5) = Ok [] ->
  run_comparison_test env
  = (banner ++ events (load_atc_samples env 5)
       ++ [Print (Text "No samples loaded. Please install: pip install datasets")],
     Ok tt).
Proof.
  intros Hload. unfold run_comparison_test, print, emit.
  rewrite !bind_ok. cbv beta.
  rewrite (M_eta (load_atc_samples env 5)), Hload, bind_ok.
  cbn [events outcome fst snd]. reflexivity.
Qed.

Section Run.

Variable env : Env.
Variable wer_of : string -> string -> Q.
Hypothesis scorer_returns :
  forall reference hypothesis,
    calculate_wer (jiwer env) reference hypothesis = Ok (wer_of reference hypothesis).

(** A run that loaded at least one sample: the banner, the loader's
    lines, one block per sample, then the summary of the two score lists. *)
Lemma run_with_samples (samples : list Sample) :
  outcome (load_atc_samples env 5) = Ok samples ->
  samples <> [] ->
  run_comparison_test env
  = (banner ++ events (load_atc_samples env 5)
       ++ flat_map (sample_events env wer_of) samples
       ++ events (summary (generic_scores env wer_of samples)
                    (atc_scores env wer_of samples)),
     outcome (summary (generic_scores env wer_of samples)
                (atc_scores env wer_of samples))).
Proof.
  intros Hload Hsome. unfold run_comparison_test, print, emit.
  rewrite !bind_ok. cbv beta.
  rewrite (M_eta (load_atc_samples env 5)), Hload, bind_ok.
  destruct samples as [|sample rest]; [contradiction|].
  rewrite (comparison_loop_runs env wer_of scorer_returns), bind_ok.
  cbn [events outcome fst snd]. reflexivity.
Qed.

Lemma run_invocations (b : backend) (samples : list Sample) :
  outcome (load_atc_samples env 5) = Ok samples ->
  invocations b (events (run_comparison_test env)) = length samples.
Proof.
  intros Hload. destruct samples as [|sample rest].
  - rewrite (run_without_samples env Hload). cbn [events fst].
    rewrite !invocations_app, (proj1 (load_atc_samples_quiet env 5)).
    reflexivity.
  - rewrite (run_with_samples (sample :: rest) Hload) by discriminate.
    cbn [events fst].
    rewrite !invocations_app, (proj1 (load_atc_samples_quiet env 5)),
      sample_events_invocations, (proj1 (summary_quiet _ _)).
    cbn. lia.
Qed.

Lemma run_scores (samples : list Sample) :
  outcome (load_atc_samples env 5) = Ok samples ->
  scores (events (run_comparison_test env))
  = flat_map (fun s => [ (text s, hypothesis_of (generic_whisper env) s);
                         (text s, hypothesis_of (atc_whisper env) s) ]) samples.
Proof.
  intros Hload. destruct samples as [|sample rest].
  - rewrite (run_without_samples env Hload). cbn [events fst].
    rewrite !scores_app, (proj1 (proj2 (load_atc_samples_quiet env 5))).
    reflexivity.
  - rewrite (run_with_samples (sample :: rest) Hload) by discriminate.
    cbn [events fst].
    rewrite !scores_app, (proj1 (proj2 (load_atc_samples_quiet env 5))),
      sample_events_scores, (proj2 (summary_quiet _ _)).
    cbn. now rewrite app_nil_r.
Qed.

End Run.

Lemma fallback_scorer_returns (env : Env) :
  jiwer env = None ->
  forall reference hypothesis,
    calculate_wer (jiwer env) reference hypothesis
    = Ok (fallback_wer reference hypothesis).
Proof. now intros ->. Qed.

(** ** Claims about failures *)

(** C5. [load_atc_samples] never raises; when reaching the corpus fails
    (the import, [load_dataset], fetching an entry or reading one of its
    fields raises) it returns the empty list.  A run whose loader returned
    the empty list prints one more line and returns: no model is called,
    nothing is scored and no summary is printed. *)
Theorem C5_corpus_failure_gives_empty_run :
  (forall env num_samples,
      exists samples, outcome (load_atc_samples env num_samples) = Ok samples)
  /\ (forall env num_samples e,
         corpus_access env num_samples = Raise e ->
         outcome (load_atc_samples env num_samples) = Ok [])
  /\ (forall env,
         outcome (load_atc_samples env 5) = Ok [] ->
         run_comparison_test env
         = (banner ++ events (load_atc_samples env 5)
              ++ [Print (Text "No samples loaded. Please install: pip install datasets")],
            Ok tt)
         /\ (forall b, invocations b (events (run_comparison_test env)) = 0%nat)
         /\ scores (events (run_comparison_test env)) = []
         /\ verdicts (events (run_comparison_test env)) = []).
Proof.
  split; [|split].
  - intros env num_samples.
    destruct (corpus_access env num_samples) as [samples|e] eqn:H.
    + exists samples. now rewrite (load_atc_samples_loaded _ _ _ H).
    + exists []. now rewrite (load_atc_samples_failed _ _ _ H).
  - intros env num_samples e H. now rewrite (load_atc_samples_failed _ _ _ H).
  - intros env Hload. rewrite (run_without_samples env Hload).
    destruct (load_atc_samples_quiet env 5) as (Hcalls & Hscores & Hverdicts).
    cbn [events fst]. repeat split.
    + intros b. rewrite !invocations_app, Hcalls. reflexivity.
    + rewrite !scores_app, Hscores. reflexivity.
    + unfold verdicts in *. rewrite !flat_map_app, Hverdicts. reflexivity.
Qed.

Lemma C5_witness :
  outcome (load_atc_samples no_corpus_env 5) = Ok []
  /\ run_comparison_test no_corpus_env
     = (banner
          ++ [ Print (Text "Loading ATC dataset from HuggingFace...");
               Print (LoadError (ImportError "No module named 'datasets'")) ]
          ++ [Print (Text "No samples loaded. Please install: pip install datasets")],
        Ok tt)
  /\ (forall b, invocations b (events (run_comparison_test no_corpus_env)) = 0%nat)
  /\ scores (events (run_comparison_test no_corpus_env)) = []
  /\ verdicts (events (run_comparison_test no_corpus_env)) = [].
Proof.
  split.
  - exact (proj1 (proj2 C5_corpus_failure_gives_empty_run) no_corpus_env 5
             (ImportError "No module named 'datasets'") eq_refl).
  - exact (proj2 (proj2 C5_corpus_failure_gives_empty_run) no_corpus_env eq_refl).
Defined.

(** One malformed entry among the requested ones discards the entries
    already read. *)
Example malformed_entry_empties_the_load :
  load_atc_samples malformed_corpus_env 5
  = ([ Print (Text "Loading ATC dataset from HuggingFace...");
       Print (LoadError (Exception "'text'")) ],
     Ok []).
Proof. reflexivity. Qed.

(** The sixth entry is fetched before the loop breaks: if fetching it
    raises, the five entries already read are lost as well. *)
Example failed_fetch_after_the_prefix :
  load_atc_samples
    (offline_env
       (Ok (map well_formed (corpus_of (firstn 5 ten_references))
              ++ [Raise (Exception "connection reset")]))
       (replies ten_references) (replies ten_references))
    5
  = ([ Print (Text "Loading ATC dataset from HuggingFace...");
       Print (LoadError (Exception "connection reset")) ],
     Ok []).
Proof. reflexivity. Qed.

(** ** Claims about sample loading *)

Lemma firstn_min {A} (n : nat) (l : list A) :
  firstn (Nat.min n (length l)) l = firstn n l.
Proof.
  destruct (Nat.le_gt_cases n (length l)) as [H|H].
  - now rewrite Nat.min_l.
  - rewrite Nat.min_r, firstn_all by lia. symmetry. apply firstn_all2. lia.
Qed.

Lemma number_from_rows (rows : list (Audio * string)) :
  forall i, map (fun s => (audio s, text s)) (number_from i rows) = rows.
Proof.
  induction rows as [|[a t] rest IH]; intros i; cbn; [|rewrite IH]; reflexivity.
Qed.

(** ** Claims about the summary *)

Lemma verdicts_app (tr tr' : list event) :
  verdicts (tr ++ tr') = verdicts tr ++ verdicts tr'.
Proof. apply flat_map_app. Qed.

Lemma sample_events_verdicts (env : Env) (wer_of : string -> string -> Q)
  (samples : list Sample) :
  verdicts (flat_map (sample_events env wer_of) samples) = [].
Proof.
  induction samples as [|sample rest IH]; [reflexivity|].
  cbn [flat_map]. now rewrite verdicts_app, IH.
Qed.

(** The run over [two_sample_env]: generic scores 1 and 4/5, specialized
    scores 0 and 0, an improvement of 100 percent. *)
Example two_sample_run :
  outcome (run_comparison_test two_sample_env) = Ok tt
  /\ scores (events (run_comparison_test two_sample_env))
     = [ ("cleared for takeoff runway two seven", "clear for take off runway two seven");
         ("cleared for takeoff runway two seven", "cleared for takeoff runway two seven");
         ("descend and maintain four thousand", "descend maintain 4000");
         ("descend and maintain four thousand", "descend and maintain four thousand")
       ]%string
  /\ map Qred (improvements (events (run_comparison_test two_sample_env))) = [100%Q]
  /\ verdicts (events (run_comparison_test two_sample_env)) = [RecommendSpecialized].
Proof. now vm_compute. Qed.

(** C3 (the code does otherwise).  The summary divides by the generic
    average without testing it: when that average is zero the division
    raises [ZeroDivisionError], after the two averages are printed and
    before any improvement or recommendation line.  On the two-sample
    corpus with both models transcribing word for word the run ends in that
    exception. *)
Theorem C3_zero_generic_average_raises :
  (forall generic_wers atc_wers,
      outcome (summary generic_wers atc_wers)
      = if Qeq_bool (average generic_wers) 0
        then Raise (ZeroDivisionError "float division by zero")
        else Ok tt)
  /\ summary [0%Q] [0%Q]
     = ([ Print (Text (nl ++ rule)); Print (Text "SUMMARY"); Print (Text rule);
          Print (AverageWer GenericWhisper 0%Q); Print (AverageWer AtcWhisper 0%Q) ],
        Raise (ZeroDivisionError "float division by zero"))
  /\ outcome (run_comparison_test perfect_env)
     = Raise (ZeroDivisionError "float division by zero")
  /\ improvements (events (run_comparison_test perfect_env)) = []
  /\ verdicts (events (run_comparison_test perfect_env)) = [].
Proof.
  split; [|now vm_compute].
  intros generic_wers atc_wers. now rewrite summary_events.
Qed.

(** ** Claims about the script entry *)

(** C9 as stated fails twice.  A sample count of 10 on the command line,
    over a corpus of ten entries, still gives five calls per model; and
    [--demo] with torch missing runs nothing: the script prints what is
    missing and the hint, calls no model and scores nothing. *)
Lemma C9_counterexample :
  (invocations GenericWhisper (events (main ["10"%string] ten_sample_env)) = 5%nat
   /\ invocations GenericWhisper (events (main ["10"%string] ten_sample_env)) <> 10%nat)
  /\ main ["--demo"%string] no_torch_env
     = ([ Print (Text "Missing dependencies. Install with:");
          Print (PipInstall ["torch"%string]);
          Print (Text (nl ++ "Alternatively, run the quick demo without ML dependencies:"));
          Print (Text "  python test_atc_transcription.py --demo") ],
        Ok tt)
  /\ (forall b, invocations b (events (main ["--demo"%string] no_torch_env)) = 0%nat)
  /\ scores (events (main ["--demo"%string] no_torch_env)) = [].
Proof.
  repeat split; try (vm_compute; congruence).
Qed.

(** * Further properties of the code *)

(** ** Case and whitespace *)

Lemma lower_char_idempotent (c : ascii) :
  PyStr.lower_char (PyStr.lower_char c) = PyStr.lower_char c.
Proof. destruct c as [[] [] [] [] [] [] [] []]; reflexivity. Qed.

Lemma isspace_lower_char (c : ascii) :
  PyStr.isspace (PyStr.lower_char c) = PyStr.isspace c.
Proof. destruct c as [[] [] [] [] [] [] [] []]; reflexivity. Qed.

Lemma lower_idempotent (s : string) : PyStr.lower (PyStr.lower s) = PyStr.lower s.
Proof.
  induction s as [|c s IH]; cbn; [reflexivity|].
  now rewrite lower_char_idempotent, IH.
Qed.

Lemma lower_lstrip (s : string) :
  PyStr.lower (PyStr.lstrip s) = PyStr.lstrip (PyStr.lower s).
Proof.
  induction s as [|c s IH]; cbn; [reflexivity|].
  rewrite isspace_lower_char. now destruct (PyStr.isspace c).
Qed.

Lemma lower_rstrip (s : string) :
  PyStr.lower (PyStr.rstrip s) = PyStr.rstrip (PyStr.lower s).
Proof.
  induction s as [|c s IH]; cbn; [reflexivity|].
  rewrite <- IH, isspace_lower_char.
  destruct (PyStr.rstrip s); cbn; [now destruct (PyStr.isspace c)|reflexivity].
Qed.

Lemma split_lstrip (s : string) : PyStr.split (PyStr.lstrip s) = PyStr.split s.
Proof.
  unfold PyStr.split. induction s as [|c s IH]; cbn; [reflexivity|].
  destruct (PyStr.isspace c) eqn:Hc; [exact IH|].
  cbn. now rewrite Hc.
Qed.

Lemma split_from_cons (word : string) (c : ascii) (rest : string) :
  PyStr.split_from word (String c rest)
  = if PyStr.isspace c then
      match word with
      | EmptyString => PyStr.split_from EmptyString rest
      | _ => word :: PyStr.split_from EmptyString rest
      end
    else PyStr.split_from (word ++ String c EmptyString) rest.
Proof. reflexivity. Qed.

Lemma split_from_rstrip (s : string) :
  forall word, PyStr.split_from word (PyStr.rstrip s) = PyStr.split_from word s.
Proof.
  induction s as [|c s IH]; intros word; [reflexivity|].
  cbn [PyStr.rstrip]. rewrite (split_from_cons word c s).
  destruct (PyStr.rstrip s) as [|k kept] eqn:Hkept.
  - rewrite <- !IH. destruct (PyStr.isspace c) eqn:Hc.
    + now destruct word.
    + rewrite split_from_cons, Hc. reflexivity.
  - rewrite (split_from_cons word c (String k kept)), !IH. reflexivity.
Qed.

Lemma words_strip (s : string) : words (PyStr.strip s) = words s.
Proof.
  unfold words, PyStr.strip.
  rewrite lower_rstrip, lower_lstrip.
  unfold PyStr.split. rewrite split_from_rstrip.
  apply split_lstrip.
Qed.

Lemma words_lower (s : string) : words (PyStr.lower s) = words s.
Proof. unfold words. now rewrite lower_idempotent. Qed.

Lemma fallback_wer_by_words (reference reference' hypothesis hypothesis' : string) :
  words reference = words reference' ->
  words hypothesis = words hypothesis' ->
  fallback_wer reference hypothesis = fallback_wer reference' hypothesis'.
Proof. intros Hr Hh. rewrite !fallback_wer_unfold. now rewrite Hr, Hh. Qed.

(** X1. Scoring ignores letter case on both branches: lowercasing either
    argument beforehand changes nothing, whatever jiwer is or does. *)
Theorem calculate_wer_ignores_case :
  forall (jiwer : option scorer) (reference hypothesis : string),
    calculate_wer jiwer (PyStr.lower reference) hypothesis
    = calculate_wer jiwer reference hypothesis
    /\ calculate_wer jiwer reference (PyStr.lower hypothesis)
       = calculate_wer jiwer reference hypothesis.
Proof.
  intros jiwer reference hypothesis. unfold calculate_wer.
  rewrite !lower_idempotent.
  rewrite (fallback_wer_by_words (PyStr.lower reference) reference hypothesis hypothesis
             (words_lower reference) eq_refl).
  rewrite (fallback_wer_by_words reference reference (PyStr.lower hypothesis) hypothesis
             eq_refl (words_lower hypothesis)).
  split; reflexivity.
Qed.

(** X2. The fallback score ignores whitespace around either string: the
    [strip()] the backends apply to a transcription does not change its
    score. *)
Theorem fallback_ignores_surrounding_whitespace :
  forall reference hypothesis : string,
    calculate_wer None (PyStr.strip reference) (PyStr.strip hypothesis)
    = calculate_wer None reference hypothesis.
Proof.
  intros reference hypothesis. cbn. f_equal.
  apply fallback_wer_by_words; apply words_strip.
Qed.

(** ** Saturation and sentinels under the fallback *)

(** X3. Under the fallback, a reference with at least one word scores a full
    1 against a hypothesis that has no words at all, and against any
    hypothesis at least twice as long as the reference. *)
Theorem fallback_saturates :
  forall reference hypothesis : string,
    words reference <> [] ->
    words hypothesis = []
    \/ (2 * length (words reference) <= length (words hypothesis))%nat ->
    exists q : Q, calculate_wer None reference hypothesis = Ok q /\ (q == 1)%Q.
Proof.
  intros reference hypothesis Hsome Hlong.
  exists (fallback_wer reference hypothesis). split; [reflexivity|].
  rewrite fallback_wer_unfold.
  destruct (words reference) as [|r ref_rest]; [contradiction|].
  apply Q.min_l. rewrite zip_errors_mismatches.
  unfold Qle. cbn [Qnum Qden length] in *.
  destruct Hlong as [->|Hlong]; cbn [length] in *; lia.
Qed.

Lemma fallback_saturates_witness :
  exists q : Q,
    calculate_wer None "cleared for takeoff" "   " = Ok q /\ (q == 1)%Q.
Proof.
  apply (fallback_saturates "cleared for takeoff" "   ").
  - discriminate.
  - left. reflexivity.
Defined.

Lemma sentinel_words (e : exn) :
  words (sentinel e) = "[error:"%string :: words (str e ++ "]").
Proof. reflexivity. Qed.

(** X4. Under the fallback a failed transcription cannot pass for a perfect
    one: unless the reference itself begins with the word "[error:", the
    sentinel of any failure scores strictly above 0 against it, and exactly
    1 when the reference has no words. *)
Theorem sentinel_scores_positive :
  forall (e : exn) (reference : string),
    hd_error (words reference) <> Some "[error:"%string ->
    exists q : Q,
      calculate_wer None reference (sentinel e) = Ok q
      /\ (0 < q)%Q
      /\ (words reference = [] -> q = 1%Q).
Proof.
  intros e reference Hhead.
  exists (fallback_wer reference (sentinel e)). split; [reflexivity|]. split.
  - destruct (Qle_lt_or_eq _ _ (proj1 (fallback_wer_bounds reference (sentinel e))))
      as [H|H]; [exact H|].
    exfalso. apply Hhead.
    symmetry in H. apply fallback_wer_zero_iff in H.
    now rewrite H, sentinel_words.
  - intros Hempty. rewrite fallback_wer_unfold, Hempty, sentinel_words. reflexivity.
Qed.

Lemma sentinel_scores_positive_witness :
  exists q : Q,
    calculate_wer None "descend and maintain four thousand"
      (sentinel (Exception "out of memory")) = Ok q
    /\ (0 < q)%Q
    /\ (words "descend and maintain four thousand" = [] -> q = 1%Q).
Proof.
  apply (sentinel_scores_positive (Exception "out of memory")
           "descend and maintain four thousand").
  discriminate.
Defined.

(** ** The loader on arbitrary corpora *)

Lemma enumerate_loop_result (dataset : Dataset) :
  forall (i num_samples : Z) (samples out : list Sample),
    enumerate_loop i num_samples dataset samples = Ok out ->
    exists new,
      out = samples ++ new
      /\ length new = Nat.min (Z.to_nat (num_samples - i)) (length dataset)
      /\ map (fun s : Sample => id s) new
         = map (fun k => i + Z.of_nat k) (seq 0 (length new))
      /\ Forall2 read_from (firstn (length new) dataset) new.
Proof.
  induction dataset as [|entry rest IH]; intros i num_samples samples out Hrun.
  - injection Hrun as <-. exists []. rewrite app_nil_r, Nat.min_0_r.
    repeat split. constructor.
  - destruct entry as [item|e]; [|discriminate].
    cbn [enumerate_loop] in Hrun.
    destruct (Z.geb_spec i num_samples) as [Hge|Hlt].
    + injection Hrun as <-. exists [].
      replace (Z.to_nat (num_samples - i)) with 0%nat by lia.
      rewrite app_nil_r. repeat split. constructor.
    + destruct (item_audio item) as [a|] eqn:Haudio; [|discriminate].
      destruct (item_text item) as [t|] eqn:Htext; [|discriminate].
      destruct (IH _ _ _ _ Hrun) as (new & -> & Hlen & Hids & Hread).
      exists ({| audio := a; text := t; id := i |} :: new).
      rewrite <- app_assoc. split; [reflexivity|]. split; [|split].
      * cbn [length]. rewrite Hlen. lia.
      * cbn [length seq map id]. rewrite Z.add_0_r. f_equal.
        rewrite Hids, <- seq_shift, map_map. apply map_ext. intros k. lia.
      * cbn [length firstn]. constructor; [|exact Hread].
        exists item. now repeat split.
Qed.

(** X5. Whatever the corpus and whatever count is asked for, the loader
    returns a list that is no longer than the count, carries the ids
    0, 1, 2, ... in order, and is either empty or the complete prefix of the
    corpus (the first [min(count, corpusSize)] entries, each read from the
    entry at its position): it never returns part of what was asked. *)
Theorem loader_all_or_nothing :
  forall (env : Env) (num_samples : Z),
  exists samples : list Sample,
    outcome (load_atc_samples env num_samples) = Ok samples
    /\ (length samples <= Z.to_nat num_samples)%nat
    /\ map (fun s : Sample => id s) samples = map Z.of_nat (seq 0 (length samples))
    /\ (samples = []
        \/ exists dataset,
             load_dataset env = Ok dataset
             /\ length samples = Nat.min (Z.to_nat num_samples) (length dataset)
             /\ Forall2 read_from (firstn (length samples) dataset) samples).
Proof.
  intros env num_samples.
  destruct (corpus_access env num_samples) as [samples|e] eqn:Haccess.
  - exists samples. rewrite (load_atc_samples_loaded _ _ _ Haccess).
    split; [reflexivity|].
    unfold corpus_access in Haccess.
    destruct (load_dataset env) as [dataset|] eqn:Hcorpus; [|discriminate].
    destruct (enumerate_loop_result _ _ _ _ _ Haccess) as (new & -> & Hlen & Hids & Hread).
    cbn [app]. rewrite Z.sub_0_r in Hlen. split; [lia|]. split.
    + rewrite Hids. apply map_ext. intros k. lia.
    + right. exists dataset. now repeat split.
  - exists []. rewrite (load_atc_samples_failed _ _ _ Haccess).
    repeat split; [cbn; lia|now left].
Qed.

Lemma enumerate_loop_consumes (rows : list (Audio * string)) (tail : Dataset) :
  forall (i num_samples : Z) (samples : list Sample),
    Z.of_nat (length rows) <= Z.max 0 (num_samples - i) ->
    enumerate_loop i num_samples (map well_formed rows ++ tail) samples
    = enumerate_loop (i + Z.of_nat (length rows)) num_samples tail
        (samples ++ number_from i rows).
Proof.
  induction rows as [|row rest IH]; intros i num_samples samples Hfit.
  - cbn. now rewrite Z.add_0_r, app_nil_r.
  - cbn [length] in Hfit.
    cbn [map app well_formed enumerate_loop item_audio item_text].
    destruct (Z.geb_spec i num_samples) as [Hge|Hlt]; [lia|].
    rewrite IH by lia. cbn [number_from length]. rewrite <- app_assoc.
    f_equal. lia.
Qed.

Lemma enumerate_loop_stops_before (rows : list (Audio * string))
  (item : Item) (rest : Dataset) :
  forall (i num_samples : Z) (samples : list Sample),
    num_samples - i <= Z.of_nat (length rows) ->
    enumerate_loop i num_samples (map well_formed rows ++ Ok item :: rest) samples
    = Ok (samples ++ number_from i (firstn (Z.to_nat (num_samples - i)) rows)).
Proof.
  induction rows as [|row rows' IH]; intros i num_samples samples Hfit.
  - cbn [length] in Hfit. cbn [map app enumerate_loop].
    destruct (Z.geb_spec i num_samples) as [Hge|Hlt]; [|lia].
    now rewrite firstn_nil, app_nil_r.
  - cbn [length] in Hfit.
    cbn [map app well_formed enumerate_loop item_audio item_text].
    destruct (Z.geb_spec i num_samples) as [Hge|Hlt].
    + replace (Z.to_nat (num_samples - i)) with 0%nat by lia.
      cbn. now rewrite app_nil_r.
    + rewrite IH by lia.
      replace (Z.to_nat (num_samples - i))
        with (S (Z.to_nat (num_samples - (i + 1)))) by lia.
      cbn. now rewrite <- app_assoc.
Qed.

(** X6. One bad entry among those the loop reaches empties the whole load.
    After well-formed entries, an entry whose fetch raises at a position up
    to and including [num_samples] (the loop fetches before it tests the
    count), or whose "audio" or "text" lookup raises at a position below
    [num_samples], makes the loader print the error and return the empty
    list: the entries already read are dropped. *)
Theorem bad_entry_empties_the_load :
  forall (env : Env) (num_samples : Z) (rows : list (Audio * string))
         (bad : result Item) (rest : Dataset) (e : exn),
    load_dataset env = Ok (map well_formed rows ++ bad :: rest) ->
    (fetch_error bad = Some e /\ Z.of_nat (length rows) <= Z.max 0 num_samples)
    \/ (field_error bad = Some e /\ Z.of_nat (length rows) < num_samples) ->
    load_atc_samples env num_samples
    = ([ Print (Text "Loading ATC dataset from HuggingFace...");
         Print (LoadError e) ],
       Ok []).
Proof.
  intros env num_samples rows bad rest e Hcorpus Hbad.
  apply load_atc_samples_failed. unfold corpus_access. rewrite Hcorpus.
  rewrite enumerate_loop_consumes by (rewrite Z.sub_0_r; lia).
  destruct Hbad as [[Hfetch Hpos]|[Hfield Hpos]].
  - destruct bad as [item|e']; [discriminate|]. now injection Hfetch as ->.
  - destruct bad as [item|e']; [|discriminate].
    cbn [enumerate_loop field_error] in *.
    destruct (Z.geb_spec (0 + Z.of_nat (length rows)) num_samples) as [Hge|Hlt]; [lia|].
    destruct (item_audio item); [|now injection Hfield as ->].
    destruct (item_text item); [discriminate|now injection Hfield as ->].
Qed.

Lemma bad_entry_empties_the_load_witness :
  load_atc_samples malformed_corpus_env 5
  = ([ Print (Text "Loading ATC dataset from HuggingFace...");
       Print (LoadError (Exception "'text'")) ],
     Ok []).
Proof.
  apply (bad_entry_empties_the_load malformed_corpus_env 5
           [(clip 0, "cleared for takeoff runway two seven"%string)]
           (Ok {| item_audio := Ok (clip 1); item_text := Raise (Exception "'text'") |})
           [] (Exception "'text'") eq_refl).
  right. split; reflexivity.
Defined.

(** X7. Entries past the requested count are never looked at: when at least
    [num_samples] well-formed entries come first and the entry after them
    can be fetched, the loader returns the first [num_samples] entries
    whatever that entry and the rest of the corpus contain. *)
Theorem entries_past_the_count_are_not_read :
  forall (env : Env) (num_samples : Z) (rows : list (Audio * string))
         (item : Item) (rest : Dataset),
    load_dataset env = Ok (map well_formed rows ++ Ok item :: rest) ->
    num_samples <= Z.of_nat (length rows) ->
    outcome (load_atc_samples env num_samples)
    = Ok (number_from 0 (firstn (Z.to_nat num_samples) rows)).
Proof.
  intros env num_samples rows item rest Hcorpus Hfit.
  rewrite (load_atc_samples_loaded env num_samples
             (number_from 0 (firstn (Z.to_nat num_samples) rows))); [reflexivity|].
  unfold corpus_access. rewrite Hcorpus.
  rewrite enumerate_loop_stops_before by lia.
  now rewrite Z.sub_0_r.
Qed.

Lemma entries_past_the_count_are_not_read_witness :
  outcome (load_atc_samples malformed_corpus_env 1)
  = Ok [ {| audio := clip 0; text := "cleared for takeoff runway two seven"; id := 0 |} ].
Proof.
  exact (entries_past_the_count_are_not_read malformed_corpus_env 1
           [(clip 0, "cleared for takeoff runway two seven"%string)]
           {| item_audio := Ok (clip 1); item_text := Raise (Exception "'text'") |}
           [] eq_refl (Z.le_refl 1)).
Defined.

Lemma number_from_firstn (rows : list (Audio * string)) :
  forall (k : nat) (i : Z),
    number_from i (firstn k rows) = firstn k (number_from i rows).
Proof.
  induction rows as [|row rest IH]; intros [|k] i; cbn; try reflexivity.
  now rewrite IH.
Qed.

(** X8. On a corpus of well-formed entries, asking for more samples never
    changes the ones a smaller request returns: the samples for [n] are the
    first [n] of the samples for any [m >= n], ids included. *)
Theorem load_is_stable_under_larger_requests :
  forall (env : Env) (rows : list (Audio * string)) (n m : Z),
    load_dataset env = Ok (map well_formed rows) ->
    n <= m ->
    exists smaller larger,
      outcome (load_atc_samples env n) = Ok smaller
      /\ outcome (load_atc_samples env m) = Ok larger
      /\ smaller = firstn (Z.to_nat n) larger.
Proof.
  intros env rows n m Hcorpus Hle.
  assert (Haccess : forall k,
             corpus_access env k = Ok (number_from 0 (firstn (Z.to_nat k) rows))).
  { intros k. unfold corpus_access. rewrite Hcorpus, enumerate_loop_well_formed.
    now rewrite Z.sub_0_r. }
  do 2 eexists.
  rewrite (load_atc_samples_loaded _ _ _ (Haccess n)),
    (load_atc_samples_loaded _ _ _ (Haccess m)).
  split; [reflexivity|]. split; [reflexivity|].
  rewrite <- number_from_firstn, firstn_firstn. do 2 f_equal. lia.
Qed.

Lemma load_is_stable_under_larger_requests_witness :
  exists smaller larger,
    outcome (load_atc_samples ten_sample_env 3) = Ok smaller
    /\ outcome (load_atc_samples ten_sample_env 5) = Ok larger
    /\ smaller = firstn 3 larger.
Proof.
  apply (load_is_stable_under_larger_requests ten_sample_env
           (corpus_of ten_references) 3 5 eq_refl).
  discriminate.
Defined.

(** ** The comparison loop with any scorer *)

Lemma scored_unfold (env : Env) (reference hypothesis : string) :
  scored env reference hypothesis
  = ([Score reference hypothesis], calculate_wer (jiwer env) reference hypothesis).
Proof. reflexivity. Qed.

Lemma comparison_loop_step (env : Env) (sample : Sample) (rest : list Sample)
  (generic_wers atc_wers : list Q) :
  comparison_loop env (sample :: rest) generic_wers atc_wers
  = match calculate_wer (jiwer env) (text sample)
            (hypothesis_of (generic_whisper env) sample) with
    | Raise e => (generic_block env sample, Raise e)
    | Ok generic_wer =>
        match calculate_wer (jiwer env) (text sample)
                (hypothesis_of (atc_whisper env) sample) with
        | Raise e =>
            (generic_block env sample ++ generic_report env sample generic_wer
               ++ atc_block env sample,
             Raise e)
        | Ok atc_wer =>
            (generic_block env sample ++ generic_report env sample generic_wer
               ++ atc_block env sample ++ atc_report env sample atc_wer
               ++ events (comparison_loop env rest (generic_wers ++ [generic_wer])
                            (atc_wers ++ [atc_wer])),
             outcome (comparison_loop env rest (generic_wers ++ [generic_wer])
                        (atc_wers ++ [atc_wer])))
        end
    end.
Proof.
  cbn [comparison_loop]. unfold print, emit.
  rewrite !bind_ok. cbv beta. rewrite generic_call, !bind_ok. cbv beta.
  rewrite !scored_unfold.
  destruct (calculate_wer (jiwer env) (text sample)
              (hypothesis_of (generic_whisper env) sample)) as [generic_wer|e].
  - rewrite !bind_ok. cbv beta. rewrite atc_call, !bind_ok. cbv beta.
    rewrite !scored_unfold.
    destruct (calculate_wer (jiwer env) (text sample)
                (hypothesis_of (atc_whisper env) sample)) as [atc_wer|e].
    + rewrite !bind_ok. cbv beta. reflexivity.
    + reflexivity.
  - reflexivity.
Qed.

Lemma calls_app (tr tr' : list event) : calls (tr ++ tr') = calls tr ++ calls tr'.
Proof. apply flat_map_app. Qed.

Lemma comparison_loop_result (env : Env) (samples : list Sample) :
  forall generic_wers atc_wers tr generic_wers' atc_wers',
    comparison_loop env samples generic_wers atc_wers
    = (tr, Ok (generic_wers', atc_wers')) ->
    exists generic_new atc_new,
      generic_wers' = generic_wers ++ generic_new
      /\ atc_wers' = atc_wers ++ atc_new
      /\ Forall2 (fun s q => calculate_wer (jiwer env) (text s)
                               (hypothesis_of (generic_whisper env) s) = Ok q)
           samples generic_new
      /\ Forall2 (fun s q => calculate_wer (jiwer env) (text s)
                               (hypothesis_of (atc_whisper env) s) = Ok q)
           samples atc_new
      /\ calls tr
         = flat_map (fun s => [(GenericWhisper, audio s); (AtcWhisper, audio s)]) samples.
Proof.
  induction samples as [|sample rest IH];
    intros generic_wers atc_wers tr generic_wers' atc_wers' Hrun.
  - injection Hrun as <- <- <-. exists [], []. rewrite !app_nil_r.
    repeat split; constructor.
  - rewrite comparison_loop_step in Hrun.
    destruct (calculate_wer (jiwer env) (text sample)
                (hypothesis_of (generic_whisper env) sample))
      as [generic_wer|] eqn:Hgeneric; [|discriminate].
    destruct (calculate_wer (jiwer env) (text sample)
                (hypothesis_of (atc_whisper env) sample))
      as [atc_wer|] eqn:Hatc; [|discriminate].
    injection Hrun as <- Hout.
    destruct (IH _ _ _ _ _ (eq_trans (M_eta _) (f_equal (pair _) Hout)))
      as (generic_new & atc_new & -> & -> & Hg & Ha & Hcalls).
    exists (generic_wer :: generic_new), (atc_wer :: atc_new).
    rewrite <- !app_assoc. repeat split; try (constructor; assumption).
    destruct sample as [[arr rate] t i]. unfold calls in *.
    cbn [flat_map app audio array sampling_rate]. now rewrite Hcalls.
Qed.

(** X9. Whatever the scorer does, a loop that returns has added exactly one
    score per sample to each of the two lists, in sample order, each the
    value [calculate_wer] gave for that sample's reference and that
    backend's hypothesis; and it has called the models once per sample each,
    generic first, in sample order, on that sample's audio. *)
Theorem loop_keeps_lists_aligned :
  forall (env : Env) (samples : list Sample) (tr : list event)
         (generic_wers atc_wers : list Q),
    comparison_loop env samples [] [] = (tr, Ok (generic_wers, atc_wers)) ->
    length generic_wers = length samples
    /\ length atc_wers = length samples
    /\ Forall2 (fun s q => calculate_wer (jiwer env) (text s)
                             (hypothesis_of (generic_whisper env) s) = Ok q)
         samples generic_wers
    /\ Forall2 (fun s q => calculate_wer (jiwer env) (text s)
                             (hypothesis_of (atc_whisper env) s) = Ok q)
         samples atc_wers
    /\ calls tr
       = flat_map (fun s => [(GenericWhisper, audio s); (AtcWhisper, audio s)]) samples.
Proof.
  intros env samples tr generic_wers atc_wers Hrun.
  destruct (comparison_loop_result env samples _ _ _ _ _ Hrun)
    as (generic_new & atc_new & -> & -> & Hg & Ha & Hcalls).
  cbn [app]. repeat split; try assumption.
  - symmetry. exact (Forall2_length Hg).
  - symmetry. exact (Forall2_length Ha).
Qed.

Lemma loop_keeps_lists_aligned_witness :
  exists tr generic_wers atc_wers,
    comparison_loop two_sample_env (number_from 0 (corpus_of two_references)) [] []
    = (tr, Ok (generic_wers, atc_wers))
    /\ length generic_wers = 2%nat
    /\ length atc_wers = 2%nat
    /\ calls tr
       = [ (GenericWhisper, clip 0); (AtcWhisper, clip 0);
           (GenericWhisper, clip 1); (AtcWhisper, clip 1) ].
Proof.
  do 3 eexists. split; [vm_compute; reflexivity|].
  match goal with
  | |- length ?g = _ /\ length ?a = _ /\ calls ?tr = _ =>
      destruct (loop_keeps_lists_aligned two_sample_env
                  (number_from 0 (corpus_of two_references)) tr g a)
        as (Hg & Ha & _ & _ & Hcalls)
  end.
  - vm_compute. reflexivity.
  - repeat split; assumption.
Defined.

(** ** A scorer that raises *)

Lemma run_loop_raises (env : Env) (samples : list Sample) (tr : list event) (e : exn) :
  outcome (load_atc_samples env 5) = Ok samples ->
  samples <> [] ->
  comparison_loop env samples [] [] = (tr, Raise e) ->
  run_comparison_test env = (banner ++ events (load_atc_samples env 5) ++ tr, Raise e).
Proof.
  intros Hload Hsome Hloop. unfold run_comparison_test, print, emit.
  rewrite !bind_ok. cbv beta.
  rewrite (M_eta (load_atc_samples env 5)), Hload, bind_ok.
  destruct samples as [|sample rest]; [contradiction|].
  rewrite Hloop, bind_raise. cbn [events outcome fst snd]. reflexivity.
Qed.

Lemma comparison_loop_aborts (env : Env) (sample : Sample) (after : list Sample)
  (e : exn) (before : list Sample) :
  Forall (scorable env) before ->
  calculate_wer (jiwer env) (text sample) (hypothesis_of (generic_whisper env) sample)
  = Raise e ->
  forall generic_wers atc_wers,
  exists tr,
    comparison_loop env (before ++ sample :: after) generic_wers atc_wers
    = (tr, Raise e)
    /\ invocations GenericWhisper tr = S (length before)
    /\ invocations AtcWhisper tr = length before
    /\ verdicts tr = []
    /\ averages tr = [].
Proof.
  intros Hbefore Hraise. induction Hbefore as [|s before [[gq Hg] [aq Ha]] _ IH];
    intros generic_wers atc_wers.
  - cbn [app]. rewrite comparison_loop_step, Hraise.
    eexists. split; [reflexivity|]. now repeat split.
  - cbn [app]. rewrite comparison_loop_step, Hg, Ha.
    destruct (IH (generic_wers ++ [gq]) (atc_wers ++ [aq]))
      as (tr & Hloop & Hcalls_g & Hcalls_a & Hverdicts & Haverages).
    rewrite Hloop. cbn [events outcome fst snd].
    eexists. split; [reflexivity|].
    unfold verdicts, averages in *.
    rewrite !invocations_app, !flat_map_app, Hcalls_g, Hcalls_a, Hverdicts, Haverages.
    now repeat split.
Qed.

(** X10. Scoring is not protected the way the models are.  If
    [calculate_wer] raises on the generic hypothesis of some loaded sample
    (and returned for the samples before it), the run ends with that
    exception: the specialized model is never called for that sample, the
    samples after it are not processed, and no average or recommendation is
    printed. *)
Theorem scorer_exception_aborts_the_run :
  forall (env : Env) (before : list Sample) (sample : Sample)
         (after : list Sample) (e : exn),
    outcome (load_atc_samples env 5) = Ok (before ++ sample :: after) ->
    Forall (scorable env) before ->
    calculate_wer (jiwer env) (text sample) (hypothesis_of (generic_whisper env) sample)
    = Raise e ->
    outcome (run_comparison_test env) = Raise e
    /\ invocations GenericWhisper (events (run_comparison_test env)) = S (length before)
    /\ invocations AtcWhisper (events (run_comparison_test env)) = length before
    /\ averages (events (run_comparison_test env)) = []
    /\ verdicts (events (run_comparison_test env)) = [].
Proof.
  intros env before sample after e Hload Hbefore Hraise.
  destruct (comparison_loop_aborts env sample after e before Hbefore Hraise [] [])
    as (tr & Hloop & Hcalls_g & Hcalls_a & Hverdicts & Haverages).
  rewrite (run_loop_raises env _ tr e Hload) by (try assumption; now destruct before).
  cbn [events outcome fst snd].
  destruct (corpus_access env 5) as [samples|e'] eqn:Haccess.
  - rewrite (load_atc_samples_loaded _ _ _ Haccess). cbn [events fst].
    unfold verdicts, averages in *.
    rewrite !invocations_app, !flat_map_app, Hcalls_g, Hcalls_a, Hverdicts, Haverages.
    now repeat split.
  - rewrite (load_atc_samples_failed _ _ _ Haccess) in Hload.
    now destruct before.
Qed.

Lemma scorer_exception_aborts_the_run_witness :
  outcome (run_comparison_test unlabeled_entry_env)
  = Raise (Exception "one or more references are empty strings")
  /\ invocations GenericWhisper (events (run_comparison_test unlabeled_entry_env)) = 2%nat
  /\ invocations AtcWhisper (events (run_comparison_test unlabeled_entry_env)) = 1%nat
  /\ averages (events (run_comparison_test unlabeled_entry_env)) = []
  /\ verdicts (events (run_comparison_test unlabeled_entry_env)) = [].
Proof.
  apply (scorer_exception_aborts_the_run unlabeled_entry_env
           [ {| audio := clip 0; text := "cleared for takeoff runway two seven"; id := 0 |} ]
           {| audio := clip 1; text := EmptyString; id := 1 |} []).
  - reflexivity.
  - constructor; [|constructor]. split; eexists; reflexivity.
  - reflexivity.
Defined.

(** ** Averages of scores *)

Section Averages.

Local Open Scope Q_scope.

Lemma fold_left_Qplus_from (xs : list Q) :
  forall a, fold_left Qplus xs a == a + fold_left Qplus xs 0.
Proof.
  induction xs as [|x xs IH]; intros a; cbn [fold_left]; [ring|].
  rewrite (IH (a + x)), (IH (0 + x)). ring.
Qed.

Lemma sum_floats_cons (x : Q) (xs : list Q) :
  sum_floats (x :: xs) == x + sum_floats xs.
Proof.
  unfold sum_floats. cbn [fold_left]. rewrite fold_left_Qplus_from. ring.
Qed.

Lemma sum_floats_nonneg (xs : list Q) :
  Forall (fun q => 0 <= q) xs -> 0 <= sum_floats xs.
Proof.
  induction 1 as [|x xs Hx _ IH]; [discriminate|].
  rewrite sum_floats_cons. lra.
Qed.

Lemma sum_floats_zero_iff (xs : list Q) :
  Forall (fun q => 0 <= q) xs ->
  (sum_floats xs == 0 <-> Forall (fun q => q == 0) xs).
Proof.
  induction 1 as [|x xs Hx Hxs IH].
  - split; [constructor|reflexivity].
  - rewrite sum_floats_cons. pose proof (sum_floats_nonneg xs Hxs) as Hsum. split.
    + intros H. constructor; [lra|]. apply IH. lra.
    + intros H. inversion H as [|? ? Hx0 Hxs0]; subst.
      apply IH in Hxs0. lra.
Qed.

Lemma inject_succ (n : nat) :
  inject_Z (Z.of_nat (S n)) == 1 + inject_Z (Z.of_nat n).
Proof. unfold Qeq. cbn [Qnum Qden inject_Z Qplus]. lia. Qed.

Lemma sum_floats_at_most_length (xs : list Q) :
  Forall (fun q => q <= 1) xs -> sum_floats xs <= inject_Z (Z.of_nat (length xs)).
Proof.
  induction 1 as [|x xs Hx _ IH]; [discriminate|].
  cbn [length]. rewrite sum_floats_cons, inject_succ. lra.
Qed.

Lemma count_positive (n : nat) : 0 < inject_Z (Z.of_nat (S n)).
Proof. unfold Qlt. cbn [Qnum Qden inject_Z]. lia. Qed.

Lemma average_bounds (xs : list Q) :
  Forall (fun q => 0 <= q /\ q <= 1) xs -> 0 <= average xs <= 1.
Proof.
  intros Hall. destruct xs as [|x xs]; [split; discriminate|].
  assert (Hlow : Forall (fun q => 0 <= q) (x :: xs))
    by (eapply Forall_impl; [|exact Hall]; now intros q [? ?]).
  assert (Hhigh : Forall (fun q => q <= 1) (x :: xs))
    by (eapply Forall_impl; [|exact Hall]; now intros q [? ?]).
  pose proof (sum_floats_nonneg _ Hlow) as H0.
  pose proof (sum_floats_at_most_length _ Hhigh) as H1.
  pose proof (count_positive (length xs)) as Hn.
  cbn [length] in H1. unfold average. cbn [length].
  set (d := inject_Z (Z.of_nat (S (length xs)))) in *.
  set (total := sum_floats (x :: xs)) in *. split.
  - apply Qle_shift_div_l; [exact Hn|]. lra.
  - apply Qle_shift_div_r; [exact Hn|]. lra.
Qed.

Lemma average_zero_iff (xs : list Q) :
  Forall (fun q => 0 <= q) xs ->
  (average xs == 0 <-> Forall (fun q => q == 0) xs).
Proof.
  intros Hlow. destruct xs as [|x xs]; [split; [constructor|reflexivity]|].
  rewrite <- (sum_floats_zero_iff _ Hlow).
  pose proof (count_positive (length xs)) as Hn.
  unfold average. cbn [length].
  set (d := inject_Z (Z.of_nat (S (length xs)))) in *.
  set (total := sum_floats (x :: xs)) in *.
  assert (Hd : ~ d == 0) by lra. split; intros H.
  - rewrite <- (Qmult_div_r total d Hd), H. ring.
  - unfold Qdiv. rewrite H. ring.
Qed.

(** The improvement figure for averages [g > 0] and [a >= 0]. *)
Lemma improvement_bound (g a : Q) :
  0 < g -> 0 <= a ->
  (g - a) / g * 100 <= 100
  /\ ((g - a) / g * 100 == 100 <-> a == 0)
  /\ ((g - a) / g * 100 < 0 <-> g < a).
Proof.
  intros Hg Ha.
  assert (Hne : ~ g == 0) by lra.
  assert (Hx : g * ((g - a) / g) == g - a) by (apply Qmult_div_r; exact Hne).
  assert (Hle : (g - a) / g <= 1) by (apply Qle_shift_div_r; [exact Hg|lra]).
  set (x := (g - a) / g) in *. split; [lra|]. split; split; intros H.
  - assert (H1 : x == 1) by lra. rewrite H1 in Hx. lra.
  - assert (H1 : x == 1).
    { unfold x, Qdiv. assert (Hga : g - a == g) by lra. rewrite Hga.
      apply Qmult_inv_r. exact Hne. }
    lra.
  - assert (Hneg : x < 0) by lra.
    destruct (Qlt_le_dec g a) as [Hlt|Hge]; [exact Hlt|]. exfalso.
    assert (Hprod : g * x < 0).
    { rewrite Qmult_comm. rewrite <- (Qmult_0_l g). apply Qmult_lt_compat_r; assumption. }
    lra.
  - assert (Hneg : x < 0).
    { unfold x. apply Qlt_shift_div_r; [exact Hg|]. lra. }
    lra.
Qed.

End Averages.

(** ** What the summary of a run can show *)

Lemma averages_app (tr tr' : list event) :
  averages (tr ++ tr') = averages tr ++ averages tr'.
Proof. apply flat_map_app. Qed.

Lemma improvements_app (tr tr' : list event) :
  improvements (tr ++ tr') = improvements tr ++ improvements tr'.
Proof. apply flat_map_app. Qed.

Lemma load_atc_samples_no_figures (env : Env) (num_samples : Z) :
  averages (events (load_atc_samples env num_samples)) = []
  /\ improvements (events (load_atc_samples env num_samples)) = [].
Proof.
  destruct (corpus_access env num_samples) as [samples|e] eqn:H.
  - now rewrite (load_atc_samples_loaded _ _ _ H).
  - now rewrite (load_atc_samples_failed _ _ _ H).
Qed.

Lemma sample_events_no_figures (env : Env) (wer_of : string -> string -> Q)
  (samples : list Sample) :
  averages (flat_map (sample_events env wer_of) samples) = []
  /\ improvements (flat_map (sample_events env wer_of) samples) = [].
Proof.
  induction samples as [|sample rest [IHa IHi]]; [now split|].
  cbn [flat_map]. now rewrite averages_app, improvements_app, IHa, IHi.
Qed.

Lemma run_summary_figures (env : Env) (wer_of : string -> string -> Q)
  (samples : list Sample) :
  (forall reference hypothesis,
      calculate_wer (jiwer env) reference hypothesis = Ok (wer_of reference hypothesis)) ->
  outcome (load_atc_samples env 5) = Ok samples ->
  samples <> [] ->
  let g := average (generic_scores env wer_of samples) in
  let a := average (atc_scores env wer_of samples) in
  averages (events (run_comparison_test env)) = [(GenericWhisper, g); (AtcWhisper, a)]
  /\ improvements (events (run_comparison_test env))
     = (if Qeq_bool g 0 then [] else [((g - a) / g * 100)%Q])
  /\ outcome (run_comparison_test env)
     = (if Qeq_bool g 0 then Raise (ZeroDivisionError "float division by zero")
        else Ok tt).
Proof.
  intros Hscore Hload Hsome g a.
  rewrite (run_with_samples env wer_of Hscore samples Hload Hsome).
  rewrite summary_events. fold g a. cbn [events outcome fst snd].
  destruct (load_atc_samples_no_figures env 5) as [Hla Hli].
  destruct (sample_events_no_figures env wer_of samples) as [Hsa Hsi].
  rewrite !averages_app, !improvements_app, Hla, Hli, Hsa, Hsi.
  now destruct (Qeq_bool g 0).
Qed.

Lemma fallback_scores_bounded (m : model) (samples : list Sample) :
  Forall (fun q => 0 <= q /\ q <= 1)%Q
    (map (fun s => fallback_wer (text s) (hypothesis_of m s)) samples).
Proof.
  apply Forall_map, Forall_forall. intros s _. apply fallback_wer_bounds.
Qed.

Lemma fallback_scores_zero_iff (m : model) (samples : list Sample) :
  Forall (fun q => q == 0)%Q
    (map (fun s => fallback_wer (text s) (hypothesis_of m s)) samples)
  <-> Forall (fun s => words (text s) = words (hypothesis_of m s)) samples.
Proof.
  rewrite Forall_map. split; apply Forall_impl; intros s; apply fallback_wer_zero_iff.
Qed.

Lemma fallback_average_zero_iff (m : model) (samples : list Sample) :
  (average (map (fun s => fallback_wer (text s) (hypothesis_of m s)) samples) == 0)%Q
  <-> Forall (fun s => words (text s) = words (hypothesis_of m s)) samples.
Proof.
  rewrite <- fallback_scores_zero_iff. apply average_zero_iff.
  eapply Forall_impl; [|apply fallback_scores_bounded]. now intros q [? ?].
Qed.

(** X11. Without jiwer, a run that loaded samples has just two endings: it
    returns normally, or it raises [ZeroDivisionError]; and it raises
    exactly when the generic model's transcription has the same lowercased
    words as the reference on every sample. *)
Theorem run_raises_iff_generic_is_perfect :
  forall (env : Env) (samples : list Sample),
    jiwer env = None ->
    outcome (load_atc_samples env 5) = Ok samples ->
    samples <> [] ->
    let perfect :=
      Forall (fun s => words (text s)
                       = words (hypothesis_of (generic_whisper env) s)) samples in
    (outcome (run_comparison_test env)
     = Raise (ZeroDivisionError "float division by zero") <-> perfect)
    /\ (outcome (run_comparison_test env) = Ok tt <-> ~ perfect).
Proof.
  intros env samples Hjiwer Hload Hsome perfect.
  destruct (run_summary_figures env fallback_wer samples
              (fallback_scorer_returns env Hjiwer) Hload Hsome) as (_ & _ & ->).
  unfold perfect. rewrite <- fallback_average_zero_iff.
  fold (generic_scores env fallback_wer samples).
  destruct (Qeq_bool (average (generic_scores env fallback_wer samples)) 0) eqn:Hzero.
  - apply Qeq_bool_iff in Hzero. split; split; easy.
  - apply Qeq_bool_neq in Hzero. split; split; easy.
Qed.

Lemma run_raises_iff_generic_is_perfect_witness :
  (outcome (run_comparison_test perfect_env)
   = Raise (ZeroDivisionError "float division by zero")
   <-> Forall (fun s => words (text s)
                        = words (hypothesis_of (generic_whisper perfect_env) s))
         (number_from 0 (corpus_of two_references)))
  /\ (outcome (run_comparison_test perfect_env) = Ok tt
      <-> ~ Forall (fun s => words (text s)
                             = words (hypothesis_of (generic_whisper perfect_env) s))
            (number_from 0 (corpus_of two_references))).
Proof.
  apply (run_raises_iff_generic_is_perfect perfect_env
           (number_from 0 (corpus_of two_references)) eq_refl eq_refl).
  discriminate.
Defined.

(** X12. Without jiwer, the two averages a run prints lie between 0 and 1.
    When the generic average is not zero the run prints one improvement
    figure; it is never above 100, it is 100 exactly when the specialized
    transcription has the reference's words on every sample, and it is
    negative exactly when the specialized average is the larger of the two.
    When the generic average is zero no improvement is printed. *)
Theorem improvement_is_at_most_100 :
  forall (env : Env) (samples : list Sample),
    jiwer env = None ->
    outcome (load_atc_samples env 5) = Ok samples ->
    samples <> [] ->
    exists g a : Q,
      averages (events (run_comparison_test env))
      = [(GenericWhisper, g); (AtcWhisper, a)]
      /\ (0 <= g /\ g <= 1)%Q
      /\ (0 <= a /\ a <= 1)%Q
      /\ ((g == 0)%Q /\ improvements (events (run_comparison_test env)) = []
          \/ ~ (g == 0)%Q
             /\ improvements (events (run_comparison_test env))
                = [((g - a) / g * 100)%Q]
             /\ ((g - a) / g * 100 <= 100)%Q
             /\ (((g - a) / g * 100 == 100)%Q
                 <-> Forall (fun s => words (text s)
                                      = words (hypothesis_of (atc_whisper env) s))
                       samples)
             /\ (((g - a) / g * 100 < 0)%Q <-> (g < a)%Q)).
Proof.
  intros env samples Hjiwer Hload Hsome.
  destruct (run_summary_figures env fallback_wer samples
              (fallback_scorer_returns env Hjiwer) Hload Hsome) as (Havg & Himp & _).
  exists (average (generic_scores env fallback_wer samples)),
    (average (atc_scores env fallback_wer samples)).
  pose proof (average_bounds _ (fallback_scores_bounded (generic_whisper env) samples))
    as Hg.
  pose proof (average_bounds _ (fallback_scores_bounded (atc_whisper env) samples))
    as Ha.
  fold (generic_scores env fallback_wer samples) in Hg.
  fold (atc_scores env fallback_wer samples) in Ha.
  split; [exact Havg|]. split; [exact Hg|]. split; [exact Ha|].
  rewrite Himp.
  destruct (Qeq_bool (average (generic_scores env fallback_wer samples)) 0) eqn:Hzero.
  - left. apply Qeq_bool_iff in Hzero. now split.
  - right. apply Qeq_bool_neq in Hzero. split; [exact Hzero|]. split; [reflexivity|].
    rewrite <- fallback_average_zero_iff.
    fold (atc_scores env fallback_wer samples).
    apply improvement_bound; [|apply Ha].
    destruct (Qle_lt_or_eq _ _ (proj1 Hg)) as [H|H]; [exact H|].
    exfalso. apply Hzero. now symmetry.
Qed.

Lemma improvement_is_at_most_100_witness :
  exists g a : Q,
    averages (events (run_comparison_test two_sample_env))
    = [(GenericWhisper, g); (AtcWhisper, a)]
    /\ (0 <= g /\ g <= 1)%Q
    /\ (0 <= a /\ a <= 1)%Q
    /\ ((g == 0)%Q /\ improvements (events (run_comparison_test two_sample_env)) = []
        \/ ~ (g == 0)%Q
           /\ improvements (events (run_comparison_test two_sample_env))
              = [((g - a) / g * 100)%Q]
           /\ ((g - a) / g * 100 <= 100)%Q
           /\ (((g - a) / g * 100 == 100)%Q
               <-> Forall (fun s => words (text s)
                                    = words (hypothesis_of (atc_whisper two_sample_env) s))
                     (number_from 0 (corpus_of two_references)))
           /\ (((g - a) / g * 100 < 0)%Q <-> (g < a)%Q)).
Proof.
  apply (improvement_is_at_most_100 two_sample_env
           (number_from 0 (corpus_of two_references)) eq_refl eq_refl).
  discriminate.
Defined.

(** ** What a backend returns *)

Lemma rstrip_idempotent (s : string) : PyStr.rstrip (PyStr.rstrip s) = PyStr.rstrip s.
Proof.
  induction s as [|c s IH]; [reflexivity|]. cbn [PyStr.rstrip].
  destruct (PyStr.rstrip s) as [|k kept] eqn:Hkept.
  - destruct (PyStr.isspace c) eqn:Hc; [reflexivity|]. cbn. now rewrite Hc.
  - cbn [PyStr.rstrip]. cbn [PyStr.rstrip] in IH. now rewrite IH.
Qed.

Lemma lstrip_fixed (c : ascii) (s : string) :
  PyStr.isspace c = false -> PyStr.lstrip (String c s) = String c s.
Proof. intros Hc. cbn. now rewrite Hc. Qed.

Lemma lstrip_head (s : string) :
  PyStr.lstrip s = EmptyString
  \/ exists c rest, PyStr.lstrip s = String c rest /\ PyStr.isspace c = false.
Proof.
  induction s as [|c s IH]; [now left|]. cbn.
  destruct (PyStr.isspace c) eqn:Hc; [exact IH|]. right. now exists c, s.
Qed.

Lemma rstrip_head (c : ascii) (s : string) :
  PyStr.isspace c = false ->
  exists rest, PyStr.rstrip (String c s) = String c rest.
Proof.
  intros Hc. cbn [PyStr.rstrip]. destruct (PyStr.rstrip s) as [|k kept].
  - rewrite Hc. now exists EmptyString.
  - now exists (String k kept).
Qed.

Lemma strip_idempotent (s : string) : PyStr.strip (PyStr.strip s) = PyStr.strip s.
Proof.
  unfold PyStr.strip.
  destruct (lstrip_head s) as [->|(c & rest & -> & Hc)]; [reflexivity|].
  destruct (rstrip_head c rest Hc) as [kept Hkept].
  rewrite Hkept, (lstrip_fixed c kept Hc), <- Hkept.
  apply rstrip_idempotent.
Qed.

Lemma rstrip_fixed (c : ascii) (s : string) :
  PyStr.isspace c = false ->
  PyStr.rstrip (s ++ String c EmptyString) = (s ++ String c EmptyString)%string.
Proof.
  intros Hc. induction s as [|a s IH]; cbn; [now rewrite Hc|].
  cbn in IH. rewrite IH. now destruct s.
Qed.

Lemma string_app_assoc (s t u : string) :
  (s ++ (t ++ u) = (s ++ t) ++ u)%string.
Proof. induction s as [|c s IH]; cbn; [reflexivity|now rewrite IH]. Qed.

Lemma strip_sentinel (e : exn) : PyStr.strip (sentinel e) = sentinel e.
Proof.
  unfold PyStr.strip, sentinel.
  change ("[Error: " ++ str e ++ "]")%string
    with (String "[" ("Error: " ++ (str e ++ "]")))%string at 1.
  rewrite (lstrip_fixed "["%char _ eq_refl).
  change (String "[" ("Error: " ++ (str e ++ "]")))%string
    with ("[Error: " ++ (str e ++ "]"))%string.
  rewrite string_app_assoc.
  apply rstrip_fixed. reflexivity.
Qed.

(** X14. A backend function always returns a string, never an exception,
    after exactly one call of its model; and the string it returns, be it a
    transcription or an error sentinel, has no whitespace at either end
    (stripping it again changes nothing). *)
Theorem backends_return_stripped_text :
  forall (env : Env) (audio_array : list Q) (sample_rate : Z),
    (exists hypothesis,
        transcribe_with_generic_whisper env audio_array sample_rate
        = ([Transcribe GenericWhisper audio_array sample_rate], Ok hypothesis)
        /\ PyStr.strip hypothesis = hypothesis)
    /\ (exists hypothesis,
           transcribe_with_atc_whisper env audio_array sample_rate
           = ([Transcribe AtcWhisper audio_array sample_rate], Ok hypothesis)
           /\ PyStr.strip hypothesis = hypothesis).
Proof.
  intros env audio_array sample_rate. split.
  - unfold transcribe_with_generic_whisper.
    destruct (generic_whisper env audio_array sample_rate) as [transcription|e];
      eexists; (split; [reflexivity|]);
      [apply strip_idempotent|apply strip_sentinel].
  - unfold transcribe_with_atc_whisper.
    destruct (atc_whisper env audio_array sample_rate) as [transcription|e];
      eexists; (split; [reflexivity|]);
      [apply strip_idempotent|apply strip_sentinel].
Qed.

(** * The run, the scorer and the preflight together *)

(** ** Shared facts *)

Lemma run_after_loading (env : Env) (samples : list Sample) :
  outcome (load_atc_samples env 5) = Ok samples ->
  run_comparison_test env
  = (banner ++ events (load_atc_samples env 5) ++ events (compare_loaded env samples),
     outcome (compare_loaded env samples)).
Proof.
  intros Hload. unfold run_comparison_test, print, emit.
  rewrite !bind_ok. cbv beta.
  rewrite (M_eta (load_atc_samples env 5)), Hload, bind_ok.
  cbn [events outcome fst snd]. reflexivity.
Qed.

Lemma load_atc_samples_no_calls (env : Env) (num_samples : Z) :
  calls (events (load_atc_samples env num_samples)) = [].
Proof.
  destruct (corpus_access env num_samples) as [samples|e] eqn:H.
  - now rewrite (load_atc_samples_loaded _ _ _ H).
  - now rewrite (load_atc_samples_failed _ _ _ H).
Qed.

Lemma summary_no_calls (generic_wers atc_wers : list Q) :
  calls (events (summary generic_wers atc_wers)) = [].
Proof.
  rewrite summary_events. now destruct (Qeq_bool (average generic_wers) 0).
Qed.

(** When every sample can be scored the loop runs to its end. *)
Lemma comparison_loop_scorable (env : Env) (samples : list Sample) :
  Forall (scorable env) samples ->
  forall generic_wers atc_wers,
  exists tr generic_new atc_new,
    comparison_loop env samples generic_wers atc_wers
    = (tr, Ok (generic_wers ++ generic_new, atc_wers ++ atc_new))
    /\ length generic_new = length samples
    /\ length atc_new = length samples
    /\ calls tr = calls_for samples
    /\ scores tr
       = flat_map (fun s => [ (text s, hypothesis_of (generic_whisper env) s);
                              (text s, hypothesis_of (atc_whisper env) s) ]) samples
    /\ (forall b, invocations b tr = length samples).
Proof.
  induction 1 as [|sample rest [[gq Hg] [aq Ha]] _ IH]; intros generic_wers atc_wers.
  - exists [], [], []. rewrite !app_nil_r. now repeat split.
  - destruct (IH (generic_wers ++ [gq]) (atc_wers ++ [aq]))
      as (tr & generic_new & atc_new & Hloop & Hlg & Hla & Hcalls & Hscores & Hinv).
    rewrite comparison_loop_step, Hg, Ha, Hloop. cbn [events outcome fst snd].
    eexists. exists (gq :: generic_new), (aq :: atc_new).
    rewrite <- !app_assoc. split; [reflexivity|].
    cbn [length]. rewrite Hlg, Hla. repeat split.
    + rewrite !calls_app, Hcalls. destruct sample as [[arr rate] t i]. reflexivity.
    + rewrite !scores_app, Hscores. reflexivity.
    + intros b. rewrite !invocations_app, Hinv. now destruct b.
Qed.

(** A run whose loaded samples can all be scored. *)
Lemma run_over_scorable_samples (env : Env) (samples : list Sample) :
  outcome (load_atc_samples env 5) = Ok samples ->
  Forall (scorable env) samples ->
  calls (events (run_comparison_test env)) = calls_for samples
  /\ scores (events (run_comparison_test env))
     = flat_map (fun s => [ (text s, hypothesis_of (generic_whisper env) s);
                            (text s, hypothesis_of (atc_whisper env) s) ]) samples
  /\ (forall b, invocations b (events (run_comparison_test env)) = length samples).
Proof.
  intros Hload Hscorable. rewrite (run_after_loading env samples Hload).
  cbn [events fst].
  destruct (load_atc_samples_quiet env 5) as (Hlinv & Hlscores & _).
  rewrite !calls_app, !scores_app, load_atc_samples_no_calls, Hlscores.
  destruct samples as [|sample rest].
  { repeat split. intros b. rewrite !invocations_app, Hlinv. reflexivity. }
  destruct (comparison_loop_scorable env (sample :: rest) Hscorable [] [])
    as (tr & generic_new & atc_new & Hloop & _ & _ & Hcalls & Hscores & Hinv).
  unfold compare_loaded. rewrite Hloop, bind_ok. cbn [events fst snd app].
  destruct (summary_quiet generic_new atc_new) as [Hsinv Hsscores].
  rewrite calls_app, scores_app, summary_no_calls, Hsscores, Hcalls, Hscores.
  rewrite !app_nil_r. repeat split.
  intros b. rewrite !invocations_app, Hlinv, Hinv, Hsinv. cbn. lia.
Qed.

(** The corpus condition under which the loader reads a prefix: well-formed
    entries first, and after them either nothing, or an entry that can be
    fetched once the count is already reached. *)
Lemma corpus_access_reads_prefix (env : Env) (count : Z)
  (rows : list (Audio * string)) (tail : Dataset) :
  load_dataset env = Ok (map well_formed rows ++ tail) ->
  tail = []
  \/ (count <= Z.of_nat (length rows) /\ exists item rest, tail = Ok item :: rest) ->
  corpus_access env count = Ok (number_from 0 (firstn (Z.to_nat count) rows)).
Proof.
  intros Hcorpus Htail. unfold corpus_access. rewrite Hcorpus.
  destruct Htail as [->|(Hfit & item & rest & ->)].
  - rewrite app_nil_r, enumerate_loop_well_formed. now rewrite Z.sub_0_r.
  - rewrite enumerate_loop_stops_before by lia. now rewrite Z.sub_0_r.
Qed.

(** ** Claims the unguarded division and the unguarded scoring call break *)

(** C2 (the code does otherwise).  When every generic score is zero the
    summary raises at the improvement line and never reaches the test
    [avg_atc_wer < 0.15]: no recommendation is printed, whatever the
    specialized scores are.  On the two-sample corpus with both models
    transcribing word for word the specialized average is 0, below 0.15, and
    the run ends in [ZeroDivisionError] without a recommendation. *)
Theorem C2_perfect_generic_run_prints_no_recommendation :
  (forall generic_wers atc_wers,
      generic_wers <> [] ->
      Forall (fun q => q == 0)%Q generic_wers ->
      verdicts (events (summary generic_wers atc_wers)) = []
      /\ outcome (summary generic_wers atc_wers)
         = Raise (ZeroDivisionError "float division by zero"))
  /\ map (fun bq => (fst bq, Qred (snd bq)))
       (averages (events (run_comparison_test perfect_env)))
     = [(GenericWhisper, 0%Q); (AtcWhisper, 0%Q)]
  /\ (0 < 0.15)%Q
  /\ verdicts (events (run_comparison_test perfect_env)) = []
  /\ outcome (run_comparison_test perfect_env)
     = Raise (ZeroDivisionError "float division by zero").
Proof.
  split; [|now vm_compute].
  intros generic_wers atc_wers _ Hzero. rewrite summary_events.
  assert (Havg : (average generic_wers == 0)%Q).
  { apply average_zero_iff; [|exact Hzero].
    eapply Forall_impl; [|exact Hzero]. intros q Hq. rewrite Hq. discriminate. }
  apply Qeq_bool_iff in Havg. now rewrite Havg.
Qed.

(** C8 (the code does otherwise).  Only the fallback branch guards the empty
    reference.  There every string scores 0 against itself, ("", "") gives 0
    and ("", "a b c") gives 1.  On the primary branch the lowercased strings
    go to [jiwer.wer] unguarded, and whatever it raises, other than
    [ImportError], leaves [calculate_wer]: with a scorer that refuses an
    empty reference, both boundary calls raise instead of returning 0
    and 1. *)
Theorem C8_primary_branch_raises_on_empty_reference :
  (forall s : string,
      exists q : Q, calculate_wer None s s = Ok q /\ (q == 0)%Q)
  /\ calculate_wer None EmptyString EmptyString = Ok 0%Q
  /\ calculate_wer None EmptyString "a b c" = Ok 1%Q
  /\ calculate_wer (Some strict_scorer) EmptyString EmptyString
     = Raise (Exception "one or more references are empty strings")
  /\ calculate_wer (Some strict_scorer) EmptyString "a b c"
     = Raise (Exception "one or more references are empty strings")
  /\ (forall (wer : scorer) (reference hypothesis : string) (e : exn),
         wer (PyStr.lower reference) (PyStr.lower hypothesis) = Raise e ->
         (forall msg, e <> ImportError msg) ->
         calculate_wer (Some wer) reference hypothesis = Raise e).
Proof.
  split; [|repeat split].
  - intros s. exists (fallback_wer s s). split; [reflexivity|].
    now apply fallback_wer_zero_iff.
  - intros wer reference hypothesis e Hraise Hother. cbn. rewrite Hraise.
    destruct e as [msg| |]; [now contradiction (Hother msg)|reflexivity|reflexivity].
Qed.

(** C4 (the code does otherwise).  A model failure is caught inside the
    backend function, which returns "[Error: <cause>]" in place of a
    transcription.  The scoring call that follows is not protected: with
    jiwer installed, both models failing on every sample and a second sample
    whose transcript is empty, the loop scores the two sentinels of the
    first sample, raises on the first scoring call of the second sample and
    drops that sample's outcomes; the run ends with the exception and
    prints no summary. *)
Theorem C4_scoring_exception_drops_outcomes :
  (forall env audio_array sample_rate e,
      generic_whisper env audio_array sample_rate = Raise e ->
      outcome (transcribe_with_generic_whisper env audio_array sample_rate)
      = Ok ("[Error: " ++ str e ++ "]")%string)
  /\ (forall env audio_array sample_rate e,
         atc_whisper env audio_array sample_rate = Raise e ->
         outcome (transcribe_with_atc_whisper env audio_array sample_rate)
         = Ok ("[Error: " ++ str e ++ "]")%string)
  /\ outcome (load_atc_samples failing_strict_env 5)
     = Ok [ {| audio := clip 0; text := "cleared for takeoff runway two seven"; id := 0 |};
            {| audio := clip 1; text := EmptyString; id := 1 |} ]
  /\ outcome (run_comparison_test failing_strict_env)
     = Raise (Exception "one or more references are empty strings")
  /\ scores (events (run_comparison_test failing_strict_env))
     = [ ("cleared for takeoff runway two seven", "[Error: whisper-small.en not found]");
         ("cleared for takeoff runway two seven", "[Error: out of memory]");
         (EmptyString, "[Error: whisper-small.en not found]") ]%string
  /\ invocations GenericWhisper (events (run_comparison_test failing_strict_env)) = 2%nat
  /\ invocations AtcWhisper (events (run_comparison_test failing_strict_env)) = 1%nat
  /\ averages (events (run_comparison_test failing_strict_env)) = []
  /\ verdicts (events (run_comparison_test failing_strict_env)) = [].
Proof.
  split; [|split; [|now vm_compute]].
  - intros env audio_array sample_rate e H.
    unfold transcribe_with_generic_whisper. now rewrite H.
  - intros env audio_array sample_rate e H.
    unfold transcribe_with_atc_whisper. now rewrite H.
Qed.

(** ** Claims about sample loading and the script entry *)

(** C6 (as amended).  When the corpus begins with well-formed entries and
    continues with nothing, or with an entry that can be fetched once the
    count is reached, [load_atc_samples count] returns the first
    [min(count, corpusSize)] entries in corpus order with ids 0, 1, ...,
    k-1.  When the corpus has fewer entries than requested and
    [calculate_wer] returns for both hypotheses of each loaded sample, the
    loop yields one score per corpus entry for each backend; and a run
    (which requests 5) over such a corpus of fewer than 5 entries loads all
    of them, calls each model once per entry in corpus order and scores
    both hypotheses of every entry. *)
Theorem C6_load_is_prefix_take :
  (forall (env : Env) (count : Z) (rows : list (Audio * string)) (tail : Dataset),
      load_dataset env = Ok (map well_formed rows ++ tail) ->
      tail = []
      \/ (count <= Z.of_nat (length rows) /\ exists item rest, tail = Ok item :: rest) ->
      let size := length (map well_formed rows ++ tail) in
      let k := Z.to_nat (Z.min count (Z.of_nat size)) in
      exists samples,
        outcome (load_atc_samples env count) = Ok samples
        /\ map (fun s => (audio s, text s)) samples = firstn k rows
        /\ map (fun s : Sample => id s) samples = map Z.of_nat (seq 0 k)
        /\ length samples = k
        /\ (Z.of_nat size < count ->
            Forall (scorable env) samples ->
            exists tr generic_wers atc_wers,
              comparison_loop env samples [] [] = (tr, Ok (generic_wers, atc_wers))
              /\ length generic_wers = size
              /\ length atc_wers = size
              /\ calls tr = calls_for samples))
  /\ (forall (env : Env) (rows : list (Audio * string)),
         load_dataset env = Ok (map well_formed rows) ->
         (length rows < 5)%nat ->
         outcome (load_atc_samples env 5) = Ok (number_from 0 rows)
         /\ (Forall (scorable env) (number_from 0 rows) ->
             (forall b, invocations b (events (run_comparison_test env)) = length rows)
             /\ calls (events (run_comparison_test env)) = calls_for (number_from 0 rows)
             /\ scores (events (run_comparison_test env))
                = flat_map
                    (fun s => [ (text s, hypothesis_of (generic_whisper env) s);
                                (text s, hypothesis_of (atc_whisper env) s) ])
                    (number_from 0 rows))).
Proof.
  split.
  - intros env count rows tail Hcorpus Htail size k.
    assert (Hsize : size = (length rows + length tail)%nat)
      by (unfold size; now rewrite length_app, length_map).
    assert (Hfirst : firstn (Z.to_nat count) rows = firstn k rows).
    { rewrite <- (firstn_min (Z.to_nat count)), <- (firstn_min k).
      f_equal. unfold k. rewrite Hsize.
      destruct Htail as [->|(Hfit & _)]; cbn [length]; lia. }
    assert (Hk : (k <= length rows)%nat).
    { unfold k. rewrite Hsize.
      destruct Htail as [->|(Hfit & _)]; cbn [length]; lia. }
    exists (number_from 0 (firstn k rows)).
    assert (Hlen : length (number_from 0 (firstn k rows)) = k)
      by (rewrite number_from_length, length_firstn; lia).
    split; [|split; [|split; [|split]]].
    + rewrite (load_atc_samples_loaded _ _ _
                 (corpus_access_reads_prefix env count rows tail Hcorpus Htail)).
      cbn [outcome snd]. now rewrite Hfirst.
    + apply number_from_rows.
    + rewrite (number_from_ids _ 0). f_equal. f_equal.
      rewrite length_firstn. lia.
    + exact Hlen.
    + intros Hfew Hscorable.
      destruct (comparison_loop_scorable env _ Hscorable [] [])
        as (tr & generic_new & atc_new & Hloop & Hlg & Hla & Hcalls & _).
      exists tr, generic_new, atc_new. rewrite Hlg, Hla, Hlen.
      repeat split; try assumption; unfold k; lia.
  - intros env rows Hcorpus Hfew.
    assert (Hload : outcome (load_atc_samples env 5) = Ok (number_from 0 rows)).
    { assert (Hcorpus' : load_dataset env = Ok (map well_formed rows ++ []))
        by now rewrite app_nil_r.
      rewrite (load_atc_samples_loaded _ _ _
                 (corpus_access_reads_prefix env 5 rows [] Hcorpus' (or_introl eq_refl))).
      cbn [outcome snd]. now rewrite firstn_all2 by lia. }
    split; [exact Hload|]. intros Hscorable.
    destruct (run_over_scorable_samples env _ Hload Hscorable) as (Hcalls & Hscores & Hinv).
    repeat split; try assumption.
    intros b. rewrite Hinv. apply number_from_length.
Qed.

Lemma C6_witness :
  (exists samples,
      outcome (load_atc_samples malformed_corpus_env 1) = Ok samples
      /\ map (fun s => (audio s, text s)) samples
         = [(clip 0, "cleared for takeoff runway two seven"%string)]
      /\ map (fun s : Sample => id s) samples = [0]
      /\ length samples = 1%nat)
  /\ outcome (load_atc_samples two_sample_env 5)
     = Ok (number_from 0 (corpus_of two_references))
  /\ (forall b, invocations b (events (run_comparison_test two_sample_env)) = 2%nat)
  /\ calls (events (run_comparison_test two_sample_env))
     = [ (GenericWhisper, clip 0); (AtcWhisper, clip 0);
         (GenericWhisper, clip 1); (AtcWhisper, clip 1) ].
Proof.
  split.
  - destruct (proj1 C6_load_is_prefix_take malformed_corpus_env 1
                [(clip 0, "cleared for takeoff runway two seven"%string)]
                [Ok {| item_audio := Ok (clip 1);
                       item_text := Raise (Exception "'text'") |}]
                eq_refl)
      as (samples & Hload & Hrows & Hids & Hlen & _).
    + right. split; [apply Z.le_refl|]. now do 2 eexists.
    + exists samples. now repeat split.
  - destruct (proj2 C6_load_is_prefix_take two_sample_env (corpus_of two_references)
                eq_refl) as [Hload Hrun].
    + apply Nat.ltb_lt. reflexivity.
    + split; [exact Hload|]. destruct Hrun as (Hinv & Hcalls & _).
      * repeat constructor; eexists; reflexivity.
      * split; [exact Hinv|exact Hcalls].
Defined.

(** C6 as stated fails twice.  On a corpus of two entries whose second one
    has no "text", a request for 5 returns nothing instead of the first two
    entries.  On a corpus of two readable entries, fewer than the 5
    requested, with jiwer installed and the second transcript empty, the run
    makes three scoring calls and calls the specialized model once: not two
    outcomes for each backend. *)
Lemma C6_counterexample :
  outcome (load_atc_samples malformed_corpus_env 5) = Ok []
  /\ length (number_from 0 (corpus_of ["cleared for takeoff runway two seven"%string;
                                        EmptyString])) = 2%nat
  /\ outcome (load_atc_samples unlabeled_entry_env 5)
     = Ok (number_from 0 (corpus_of ["cleared for takeoff runway two seven"%string;
                                      EmptyString]))
  /\ invocations GenericWhisper (events (run_comparison_test unlabeled_entry_env)) = 2%nat
  /\ invocations AtcWhisper (events (run_comparison_test unlabeled_entry_env)) = 1%nat
  /\ length (scores (events (run_comparison_test unlabeled_entry_env))) = 3%nat
  /\ outcome (run_comparison_test unlabeled_entry_env)
     = Raise (Exception "one or more references are empty strings").
Proof. now vm_compute. Qed.

Lemma try_imports_no_other_error (env : Env) (packages : list string) :
  (forall p, In p packages ->
             import_package env p = Ok tt
             \/ exists msg, import_package env p = Raise (ImportError msg)) ->
  forall missing,
    try_imports env packages missing
    = Ok (missing ++ filter (is_missing env) packages).
Proof.
  induction packages as [|package rest IH]; intros Hclean missing.
  - cbn. now rewrite app_nil_r.
  - cbn [try_imports filter]. unfold is_missing at 1.
    destruct (Hclean package (or_introl eq_refl)) as [->|[msg ->]].
    + apply IH. intros p Hp. apply Hclean. now right.
    + rewrite IH by (intros p Hp; apply Hclean; now right).
      now rewrite <- app_assoc.
Qed.

Lemma try_imports_other_error (env : Env) (before : list string) :
  forall (package : string) (after : list string) (e : exn) (missing : list string),
    (forall p, In p before ->
               import_package env p = Ok tt
               \/ exists msg, import_package env p = Raise (ImportError msg)) ->
    import_package env package = Raise e ->
    (forall msg, e <> ImportError msg) ->
    try_imports env (before ++ package :: after) missing = Raise e.
Proof.
  induction before as [|first before IH];
    intros package after e missing Hclean Hraise Hother.
  - cbn. rewrite Hraise.
    destruct e as [msg| |]; [now contradiction (Hother msg)|reflexivity|reflexivity].
  - cbn [app try_imports].
    destruct (Hclean first (or_introl eq_refl)) as [->|[msg ->]];
      apply IH; try assumption; intros p Hp; apply Hclean; now right.
Qed.

Lemma check_dependencies_all_present (env : Env) :
  (forall package, In package required_packages -> import_package env package = Ok tt) ->
  check_dependencies env = ([], Ok true).
Proof.
  intros Hall. unfold check_dependencies.
  rewrite try_imports_no_other_error by (intros p Hp; left; now apply Hall).
  assert (Hnone : filter (is_missing env) required_packages = []).
  { induction required_packages as [|p l IH]; [reflexivity|].
    cbn [filter]. unfold is_missing at 1.
    rewrite (Hall p (or_introl eq_refl)). apply IH.
    intros q Hq. apply Hall. now right. }
  now rewrite Hnone.
Qed.

(** C9 (as amended).  The entry takes no sample count: the command line is
    never read, and with the four required packages importable the script
    does exactly [run_comparison_test].  A run asks the loader for 5 samples
    and then compares exactly the samples it got.  On a corpus of
    well-formed entries, followed by nothing or, once there are five, by an
    entry that can be fetched, these are the first [min(5, corpusSize)]
    entries; when [calculate_wer] returns for both hypotheses of each of
    them, the models are called on exactly these samples, in corpus order,
    generic first. *)
Theorem C9_entry_point_has_fixed_sample_count :
  (forall argv argv' env, main argv env = main argv' env)
  /\ (forall argv env,
         (forall package, In package required_packages ->
                          import_package env package = Ok tt) ->
         main argv env = run_comparison_test env)
  /\ (forall env samples,
         outcome (load_atc_samples env 5) = Ok samples ->
         run_comparison_test env
         = (banner ++ events (load_atc_samples env 5)
              ++ events (compare_loaded env samples),
            outcome (compare_loaded env samples)))
  /\ (forall env (rows : list (Audio * string)) (tail : Dataset),
         load_dataset env = Ok (map well_formed rows ++ tail) ->
         tail = []
         \/ (5 <= Z.of_nat (length rows) /\ exists item rest, tail = Ok item :: rest) ->
         outcome (load_atc_samples env 5) = Ok (number_from 0 (firstn 5 rows))
         /\ length (number_from 0 (firstn 5 rows))
            = Nat.min 5 (length (map well_formed rows ++ tail))
         /\ (Forall (scorable env) (number_from 0 (firstn 5 rows)) ->
             calls (events (run_comparison_test env))
             = calls_for (number_from 0 (firstn 5 rows)))).
Proof.
  split; [reflexivity|]. split; [|split].
  - intros argv env Hall. unfold main.
    rewrite (check_dependencies_all_present env Hall), bind_ok.
    cbn [app]. symmetry. apply M_eta.
  - exact run_after_loading.
  - intros env rows tail Hcorpus Htail.
    assert (Hload : outcome (load_atc_samples env 5)
                    = Ok (number_from 0 (firstn 5 rows))).
    { now rewrite (load_atc_samples_loaded _ _ _
                     (corpus_access_reads_prefix env 5 rows tail Hcorpus Htail)). }
    split; [exact Hload|]. split.
    + rewrite number_from_length, length_firstn, length_app, length_map.
      destruct Htail as [->|(Hfit & _)]; cbn [length]; lia.
    + intros Hscorable.
      apply (run_over_scorable_samples env _ Hload Hscorable).
Qed.

Lemma C9_witness :
  main [] ten_sample_env = run_comparison_test ten_sample_env
  /\ outcome (load_atc_samples ten_sample_env 5)
     = Ok (number_from 0 (firstn 5 (corpus_of ten_references)))
  /\ length (number_from 0 (firstn 5 (corpus_of ten_references))) = 5%nat
  /\ calls (events (run_comparison_test ten_sample_env))
     = calls_for (number_from 0 (firstn 5 (corpus_of ten_references))).
Proof.
  split.
  - exact (proj1 (proj2 C9_entry_point_has_fixed_sample_count) [] ten_sample_env
             (fun _ _ => eq_refl)).
  - destruct (proj2 (proj2 (proj2 C9_entry_point_has_fixed_sample_count))
                ten_sample_env (firstn 6 (corpus_of ten_references))
                (map well_formed (skipn 6 (corpus_of ten_references))) eq_refl)
      as (Hload & Hlen & Hcalls).
    + right. split; [discriminate|]. now do 2 eexists.
    + split; [exact Hload|]. split; [exact Hlen|].
      apply Hcalls. repeat constructor; eexists; reflexivity.
Defined.

(** ** The preflight *)

(** X13. The preflight catches [ImportError] only.  If every required import
    returns or raises [ImportError], and at least one raises it, the script
    prints the packages that are missing (exactly those, in the order
    datasets, torch, transformers, soundfile) and the demo hint, and returns
    normally: the corpus is not loaded, no model is called, nothing is
    scored, whatever the command line.  If instead an import raises any
    other exception, after imports that returned or raised [ImportError],
    that exception leaves the script before anything is printed. *)
Theorem missing_package_prevents_the_run :
  (forall (argv : list string) (env : Env) (package : string),
      (forall p, In p required_packages ->
                 import_package env p = Ok tt
                 \/ exists msg, import_package env p = Raise (ImportError msg)) ->
      In package required_packages ->
      (exists msg, import_package env package = Raise (ImportError msg)) ->
      exists missing : list string,
        main argv env
        = ([ Print (Text "Missing dependencies. Install with:");
             Print (PipInstall missing);
             Print (Text (nl ++ "Alternatively, run the quick demo without ML dependencies:"));
             Print (Text "  python test_atc_transcription.py --demo") ],
           Ok tt)
        /\ missing = filter (is_missing env) required_packages
        /\ In package missing
        /\ (forall p, In p missing
                      <-> In p required_packages
                          /\ exists msg, import_package env p = Raise (ImportError msg)))
  /\ (forall (argv : list string) (env : Env)
             (before : list string) (package : string) (after : list string) (e : exn),
         required_packages = before ++ package :: after ->
         (forall p, In p before ->
                    import_package env p = Ok tt
                    \/ exists msg, import_package env p = Raise (ImportError msg)) ->
         import_package env package = Raise e ->
         (forall msg, e <> ImportError msg) ->
         main argv env = ([], Raise e)).
Proof.
  split.
  - intros argv env package Hclean Hreq [msg Hmissing].
    exists (filter (is_missing env) required_packages).
    assert (Hin : forall p,
               In p (filter (is_missing env) required_packages)
               <-> In p required_packages
                   /\ exists msg, import_package env p = Raise (ImportError msg)).
    { intros p. rewrite filter_In. unfold is_missing. split; intros [Hp H]; split;
        try assumption.
      - destruct (import_package env p) as [|[m| |]]; try discriminate. now exists m.
      - destruct H as [m ->]. reflexivity. }
    assert (Hpackage : In package (filter (is_missing env) required_packages))
      by (apply Hin; split; [assumption|now exists msg]).
    split; [|split; [reflexivity|split; [exact Hpackage|exact Hin]]].
    unfold main, check_dependencies.
    rewrite (try_imports_no_other_error env required_packages Hclean []).
    unfold lift. cbn [app]. rewrite bind_ok. cbv beta.
    destruct (filter (is_missing env) required_packages)
      as [|first others]; [destruct Hpackage|reflexivity].
  - intros argv env before package after e Hsplit Hclean Hraise Hother.
    unfold main, check_dependencies. rewrite Hsplit.
    now rewrite (try_imports_other_error env before package after e [] Hclean Hraise Hother).
Qed.

Lemma missing_package_prevents_the_run_witness :
  (exists missing : list string,
      main [] no_torch_env
      = ([ Print (Text "Missing dependencies. Install with:");
           Print (PipInstall missing);
           Print (Text (nl ++ "Alternatively, run the quick demo without ML dependencies:"));
           Print (Text "  python test_atc_transcription.py --demo") ],
         Ok tt)
      /\ missing = ["torch"%string])
  /\ main [] broken_torch_env
     = ([], Raise (Exception "libtorch_cpu.so: cannot open shared object file")).
Proof.
  split.
  - destruct (proj1 missing_package_prevents_the_run [] no_torch_env "torch"%string)
      as (missing & Hmain & Hmissing & _).
    + intros p [<-|[<-|[<-|[<-|[]]]]];
        [left|right; eexists|left|left]; reflexivity.
    + right. left. reflexivity.
    + eexists. reflexivity.
    + exists missing. split; [exact Hmain|exact Hmissing].
  - apply (proj2 missing_package_prevents_the_run [] broken_torch_env
             ["datasets"%string] "torch"%string ["transformers"; "soundfile"]%string).
    + reflexivity.
    + intros p [<-|[]]. right. eexists. reflexivity.
    + reflexivity.
    + discriminate.
Defined.
